(** * Gutter estimation: a shallow embedding of the estimation core

    This development embeds the geometry-to-measurement pipeline of
    [backend/services/gutter_calculator.py], the confidence fusion of
    [backend/services/roof_classifier.py] and the bounding-box estimator of
    [backend/services/estimator.py], and proves (or refutes) the properties
    stated about them.

    Numbers.  The Python code computes on [float] and [int].  Floats are
    embedded as exact rationals [Q]: every literal ([0.9], [3.28084], ...)
    denotes the decimal fraction it is written as, arithmetic is exact, and
    comparisons are the rational order; rounding error, infinities and NaN
    are outside the model.  [math.sqrt], [math.cos] and [math.radians] have
    no rational counterpart; the functions that call them are written
    inside a section that takes them as variables.

    Dictionaries.  The JSON objects the code reads with [dict.get] are
    embedded as records whose fields are [option]s: [None] is an absent key,
    and the default of each [get] is written where the code writes it. *)

From Stdlib Require Import QArith Qround ZArith List String Bool Lia Lqa Sorted.
Import ListNotations.

Local Open Scope Z_scope.
Local Open Scope Q_scope.
Local Open Scope string_scope.

(** ** Python numeric primitives *)

Module Py.

(** Strict comparison [x < y] as a boolean. *)
Definition ltb (x y : Q) : bool := negb (Qle_bool y x).

(** [x == 0] on numbers. *)
Definition is_zero (x : Q) : bool := Qeq_bool x 0.

(** [max(a, b)] returns [a] unless [b] is strictly greater. *)
Definition max (a b : Q) : Q := if ltb a b then b else a.

(** [min(a, b)] returns [a] unless [b] is strictly smaller. *)
Definition min (a b : Q) : Q := if ltb b a then b else a.

(** [max] on Python integers. *)
Definition imax (a b : Z) : Z := if (a <? b)%Z then b else a.

(** [abs(x)]. *)
Definition abs (x : Q) : Q := if ltb x 0 then - x else x.

(** [math.ceil]. *)
Definition ceil (x : Q) : Z := Qceiling x.

(** [int(x)] on a float truncates toward zero. *)
Definition int (x : Q) : Z := if Qle_bool 0 x then Qfloor x else Qceiling x.

(** Rounding to the nearest integer, ties to the even one. *)
Definition round_half_even (x : Q) : Z :=
  let f := Qfloor x in
  match Qcompare (x - inject_Z f) (1 # 2) with
  | Lt => f
  | Gt => (f + 1)%Z
  | Eq => if Z.even f then f else (f + 1)%Z
  end.

(** [round(x)] with no digits argument. *)
Definition round (x : Q) : Z := round_half_even x.

(** [10 ** n] as a rational. *)
Definition pow10 (n : nat) : Q := inject_Z (10 ^ Z.of_nat n).

(** [round(x, n)]: the multiple of [10 ** -n] nearest to [x].  The integer
    [round_digits_key x n] determines it, and two rounded values are equal
    exactly when their keys are. *)
Definition round_digits_key (x : Q) (n : nat) : Z := round_half_even (x * pow10 n).

Definition round_digits (x : Q) (n : nat) : Q :=
  inject_Z (round_digits_key x n) / pow10 n.

(** [sum(xs)]: starts at [0] and adds from the left. *)
Definition sum (xs : list Q) : Q := fold_left Qplus xs 0.

(** [d.get(key, default)] on a field that may be absent. *)
Definition get {A : Type} (field : option A) (default : A) : A :=
  match field with Some v => v | None => default end.

(** [x in [s1, ..., sn]] on strings. *)
Definition str_in (x : string) (l : list string) : bool :=
  existsb (String.eqb x) l.

(** [min(xs)] and [max(xs)] on a list with first element [x]: the first
    smallest (largest) element. *)
Definition list_min (x : Q) (xs : list Q) : Q :=
  fold_left (fun m y => if ltb y m then y else m) xs x.

Definition list_max (x : Q) (xs : list Q) : Q :=
  fold_left (fun m y => if ltb m y then y else m) xs x.

(** [len(set(xs))] on integers. *)
Definition count_distinct (xs : list Z) : nat := List.length (nodup Z.eq_dec xs).

(** Exceptions the embedded code can raise. *)
Inductive exn : Type :=
| KeyError (key : string)
| ValueError
| ZeroDivisionError
| UnboundLocalError (name : string)
| Exception (cause : exn).

(** A computation that returns a value or raises. *)
Definition result (A : Type) : Type := (exn + A)%type.

Definition ret {A : Type} (a : A) : result A := inr a.
Definition raise {A : Type} (e : exn) : result A := inl e.
Definition bind {A B : Type} (m : result A) (k : A -> result B) : result B :=
  match m with inl e => inl e | inr a => k a end.

(** A component of the value returned, if any. *)
Definition returned {A B : Type} (f : A -> B) (r : result A) : option B :=
  match r with inr a => Some (f a) | inl _ => None end.

(** [d[key]] on a field that may be absent. *)
Definition item {A : Type} (key : string) (field : option A) : result A :=
  match field with Some v => ret v | None => raise (KeyError key) end.

(** [x / y] on floats. *)
Definition div (x y : Q) : result Q :=
  if is_zero y then raise ZeroDivisionError else ret (x / y).

End Py.

Notation "x <- m ;; k" := (Py.bind m (fun x => k))
  (at level 61, m at next level, right associativity).

(** ** Input records *)

(** A latitude/longitude object: [center], and the corners of a bounding box. *)
Record LatLng : Type := mkLatLng {
  latitude : option Q;
  longitude : option Q
}.

Record BoundingBox : Type := mkBoundingBox {
  sw : option LatLng;
  ne : option LatLng
}.

(** The [stats] object of a segment and the [wholeRoofStats] object. *)
Record Stats : Type := mkStats {
  groundAreaMeters2 : option Q
}.

(** An element of [roofSegmentStats]. *)
Record RoofSegment : Type := mkRoofSegment {
  pitchDegrees : option Q;
  azimuthDegrees : option Q;
  stats : option Stats;
  boundingBox : option BoundingBox
}.

(** The empty dictionary, as each record. *)
Definition no_latlng : LatLng := mkLatLng None None.
Definition no_bbox : BoundingBox := mkBoundingBox None None.
Definition no_stats : Stats := mkStats None.

(** Truth value of a dictionary: it has a key. *)
Definition latlng_truthy (c : LatLng) : bool :=
  match latitude c, longitude c with
  | None, None => false
  | _, _ => true
  end.

(** [seg.get('stats', {}).get('groundAreaMeters2', 0)]. *)
Definition seg_ground_area (seg : RoofSegment) : Q :=
  Py.get (groundAreaMeters2 (Py.get (stats seg) no_stats)) 0.

(** ** gutter_calculator.py *)

Module GutterCalculator.

(** [len(set(round(az, 5) for az in azimuths))]. *)
Definition unique_azimuths (roof_segments : list RoofSegment) : nat :=
  let azimuths := map (fun seg => Py.get (azimuthDegrees seg) 0) roof_segments in
  Py.count_distinct (map (fun az => Py.round_digits_key az 5) azimuths).

(** [sum(areas)] over the segments' ground areas. *)
Definition total_area (roof_segments : list RoofSegment) : Q :=
  Py.sum (map seg_ground_area roof_segments).

Definition _validate_roof_type (roof_type : string)
    (roof_segments : list RoofSegment) (building_center : LatLng) : string :=
  match roof_segments with
  | [] => roof_type
  | _ :: _ =>
    let segment_count := List.length roof_segments in
    if latlng_truthy building_center then
      if Py.ltb 0 (total_area roof_segments) then
        if (segment_count =? 1)%nat then
          if negb (roof_type =? "shed") && negb (roof_type =? "flat")
          then "shed" else roof_type
        else if (segment_count =? 2)%nat then
          if negb (roof_type =? "gable") then "gable" else roof_type
        else if (4 <=? segment_count)%nat
                && (3 <=? unique_azimuths roof_segments)%nat then
          if negb (Py.str_in roof_type ["hip"; "mansard"; "complex"])
          then "hip" else roof_type
        else if (4 <? segment_count)%nat then
          if negb (roof_type =? "complex") then "complex" else roof_type
        else roof_type
      else roof_type
    else roof_type
  end.

(** A processed segment, the dictionary built by
    [_process_roof_segments_improved]. *)
Record ProcessedSegment : Type := mkProcessedSegment {
  area_m2 : Q;
  pitch_degrees : Q;
  azimuth : Q;
  eave_m : Q;
  depth_m : Q;
  pitch : Q;
  bbox : BoundingBox
}.

Section MathLib.

(** [math.radians], [math.cos], and [math.sqrt] on its domain. *)
Variables radians cos sqrt : Q -> Q.

(** [math.sqrt] raises [ValueError] on a negative argument. *)
Definition math_sqrt (x : Q) : Py.result Q :=
  if Py.ltb x 0 then Py.raise Py.ValueError else Py.ret (sqrt x).

Definition _calculate_meters_per_degree (lat : Q) : Q * Q :=
  let lat_rad := radians lat in
  (111320 * cos lat_rad, 111132).

(** [building_center.get('latitude', 40.0) if building_center else 40.0]. *)
Definition center_latitude (building_center : LatLng) : Q :=
  if latlng_truthy building_center
  then Py.get (latitude building_center) 40.0 else 40.0.

(** The loop that fills [all_lats] and [all_lons]. *)
Fixpoint collect_bounds (roof_segments : list RoofSegment)
    (all_lats all_lons : list Q) : Py.result (list Q * list Q) :=
  match roof_segments with
  | [] => Py.ret (all_lats, all_lons)
  | segment :: rest =>
    let bbox := Py.get (boundingBox segment) no_bbox in
    match sw bbox, ne bbox with
    | Some bsw, Some bne =>
      lat_sw <- Py.item "latitude" (latitude bsw) ;;
      lat_ne <- Py.item "latitude" (latitude bne) ;;
      lon_sw <- Py.item "longitude" (longitude bsw) ;;
      lon_ne <- Py.item "longitude" (longitude bne) ;;
      collect_bounds rest (all_lats ++ [lat_sw; lat_ne])%list
                          (all_lons ++ [lon_sw; lon_ne])%list
    | _, _ => collect_bounds rest all_lats all_lons
    end
  end.

(** Method 1: [(ground_area, estimated_perimeter)] from the whole-roof
    statistics. *)
Definition perimeter_method1 (whole_roof_stats : Stats) : Py.result (Q * Q) :=
  match groundAreaMeters2 whole_roof_stats with
  | Some ground_area =>
    if Py.is_zero ground_area then Py.ret (0, 0)
    else root <- math_sqrt ground_area ;; Py.ret (ground_area, 4 * root)
  | None => Py.ret (0, 0)
  end.

(** Method 2: the estimate after looking at the segments' bounding boxes. *)
Definition perimeter_method2 (roof_segments : list RoofSegment)
    (meters_per_deg_lon meters_per_deg_lat estimated_perimeter : Q)
    : Py.result Q :=
  match roof_segments with
  | [] => Py.ret estimated_perimeter
  | _ :: _ =>
    bounds <- collect_bounds roof_segments [] [] ;;
    match bounds with
    | (lat0 :: lats, lon0 :: lons) =>
      let min_lat := Py.list_min lat0 lats in
      let max_lat := Py.list_max lat0 lats in
      let min_lon := Py.list_min lon0 lons in
      let max_lon := Py.list_max lon0 lons in
      let lat_span := (max_lat - min_lat) * meters_per_deg_lat in
      let lon_span := (max_lon - min_lon) * meters_per_deg_lon in
      let bbox_perimeter := 2 * (lat_span + lon_span) in
      if Py.ltb 0 bbox_perimeter
         && (Py.is_zero estimated_perimeter
             || Py.ltb (Py.abs (bbox_perimeter - estimated_perimeter)
                        / estimated_perimeter) 0.3)
      then Py.ret bbox_perimeter
      else Py.ret estimated_perimeter
    | _ => Py.ret estimated_perimeter
    end
  end.

(** The final validation of the perimeter. *)
Definition clamp_perimeter (estimated_perimeter : Q) : Q :=
  if Py.ltb 0 estimated_perimeter then
    if Py.ltb estimated_perimeter 20 then 20
    else if Py.ltb 200 estimated_perimeter then 200
    else estimated_perimeter
  else estimated_perimeter.

Definition _calculate_building_perimeter (roof_segments : list RoofSegment)
    (building_center : LatLng) (whole_roof_stats : Stats)
    : Py.result (Q * Q) :=
  let lat := center_latitude building_center in
  let '(meters_per_deg_lon, meters_per_deg_lat) :=
    _calculate_meters_per_degree lat in
  m1 <- perimeter_method1 whole_roof_stats ;;
  let '(ground_area, estimated_perimeter) := m1 in
  estimated_perimeter <-
    perimeter_method2 roof_segments meters_per_deg_lon meters_per_deg_lat
                      estimated_perimeter ;;
  estimated_perimeter <-
    (if Py.is_zero estimated_perimeter && Py.ltb 0 ground_area
     then root <- math_sqrt ground_area ;; Py.ret (4 * root)
     else Py.ret estimated_perimeter) ;;
  Py.ret (clamp_perimeter estimated_perimeter, ground_area).

Definition _calculate_eave_length_from_area (ground_area pitch_degrees : Q)
    : Py.result Q :=
  if Qle_bool pitch_degrees 0 then math_sqrt ground_area
  else
    let pitch_rad := radians pitch_degrees in
    q <- Py.div ground_area (cos pitch_rad) ;;
    math_sqrt q.

(** Method 1 of the segment loop: eave length from the bounding box. *)
Definition eave_from_bbox (bbox : BoundingBox)
    (meters_per_deg_lon meters_per_deg_lat pitch_degrees : Q) : Py.result Q :=
  match sw bbox, ne bbox with
  | Some bsw, Some bne =>
    ne_lat <- Py.item "latitude" (latitude bne) ;;
    sw_lat <- Py.item "latitude" (latitude bsw) ;;
    let lat_span := Py.abs (ne_lat - sw_lat) * meters_per_deg_lat in
    ne_lon <- Py.item "longitude" (longitude bne) ;;
    sw_lon <- Py.item "longitude" (longitude bsw) ;;
    let lon_span := Py.abs (ne_lon - sw_lon) * meters_per_deg_lon in
    let eave_m := Py.max lat_span lon_span in
    if Py.ltb 0 pitch_degrees then
      let pitch_rad := radians pitch_degrees in
      Py.div eave_m (cos pitch_rad)
    else Py.ret eave_m
  | _, _ => Py.ret 0
  end.

(** One iteration of the loop of [_process_roof_segments_improved].
    [depth_m] is a local of the enclosing function: it is unbound
    ([None]) until an iteration assigns it and keeps its value from one
    iteration to the next.  The body returns the dictionary it appends
    and the binding of [depth_m] it leaves, or raises. *)
Definition process_segment (roof_segments : list RoofSegment)
    (meters_per_deg_lon meters_per_deg_lat perimeter_m : Q)
    (depth_var : option Q) (segment : RoofSegment)
    : Py.result (ProcessedSegment * option Q) :=
  let pitch_degrees := Py.get (pitchDegrees segment) 0 in
  let azimuth := Py.get (azimuthDegrees segment) 0 in
  let ground_area := seg_ground_area segment in
  let bbox := Py.get (boundingBox segment) no_bbox in
  eave_m <- eave_from_bbox bbox meters_per_deg_lon meters_per_deg_lat
                           pitch_degrees ;;
  eave_m <-
    (if Py.is_zero eave_m && Py.ltb 0 ground_area
     then _calculate_eave_length_from_area ground_area pitch_degrees
     else Py.ret eave_m) ;;
  eave_m <-
    (if Py.is_zero eave_m && Py.ltb 0 perimeter_m then
       let total_segment_area := total_area roof_segments in
       if Py.ltb 0 total_segment_area then
         area_ratio <- Py.div ground_area total_segment_area ;;
         Py.ret (perimeter_m * area_ratio * 0.25)
       else Py.ret eave_m
     else Py.ret eave_m) ;;
  depth_var <-
    (if Py.ltb 0 eave_m then
       d <- (if Py.ltb 0 eave_m then Py.div ground_area eave_m else Py.ret 0) ;;
       Py.ret (Some d)
     else Py.ret depth_var) ;;
  match depth_var with
  | None => Py.raise (Py.UnboundLocalError "depth_m")
  | Some depth_m =>
    Py.ret (mkProcessedSegment ground_area pitch_degrees azimuth eave_m
                               depth_m pitch_degrees bbox,
            depth_var)
  end.

(** The loop: an iteration that raises is skipped ([continue]) and
    leaves [processed_segments] and [depth_m] as they were. *)
Fixpoint process_loop (roof_segments : list RoofSegment)
    (meters_per_deg_lon meters_per_deg_lat perimeter_m : Q)
    (depth_var : option Q) (todo : list RoofSegment)
    : list ProcessedSegment :=
  match todo with
  | [] => []
  | segment :: rest =>
    match process_segment roof_segments meters_per_deg_lon
                          meters_per_deg_lat perimeter_m depth_var segment with
    | inr (processed, depth_var') =>
      processed :: process_loop roof_segments meters_per_deg_lon
                                meters_per_deg_lat perimeter_m depth_var' rest
    | inl _ =>
      process_loop roof_segments meters_per_deg_lon meters_per_deg_lat
                   perimeter_m depth_var rest
    end
  end.

Definition _process_roof_segments_improved (roof_segments : list RoofSegment)
    (building_center : LatLng) (perimeter_m : Q) : list ProcessedSegment :=
  let lat := center_latitude building_center in
  let '(meters_per_deg_lon, meters_per_deg_lat) :=
    _calculate_meters_per_degree lat in
  process_loop roof_segments meters_per_deg_lon meters_per_deg_lat
               perimeter_m None roof_segments.

End MathLib.

(** [sum(seg.get('eave_m', 0) for seg in processed_segments)]. *)
Definition segment_eave_sum (processed_segments : list ProcessedSegment) : Q :=
  Py.sum (map eave_m processed_segments).

(** The segment-based path of [_calculate_eave_length_improved]: the sum,
    its cap against the perimeter, and the complexity by segment count. *)
Definition eave_length_from_segments
    (processed_segments : list ProcessedSegment) (perimeter_m : Q) : Q * Q :=
  let segment_eave_sum := segment_eave_sum processed_segments in
  let segment_eave_sum :=
    if Py.ltb 0 perimeter_m then
      let max_eave_m := perimeter_m * 1.2 in
      if Py.ltb max_eave_m segment_eave_sum then perimeter_m * 0.9
      else segment_eave_sum
    else segment_eave_sum in
  let segment_count := List.length processed_segments in
  let complexity_factor :=
    if (segment_count <=? 2)%nat then 1.0
    else if (segment_count <=? 4)%nat then 1.2
    else 1.4 in
  (segment_eave_sum, complexity_factor).

Definition _calculate_eave_length_improved (roof_type : string)
    (processed_segments : list ProcessedSegment)
    (perimeter_m building_footprint_m2 : Q) : Q * Q :=
  match processed_segments with
  | [] => (0.0, 1.0)
  | _ :: _ =>
    if roof_type =? "hip" then
      if Py.ltb 0 perimeter_m then
        let total_eave_m := perimeter_m * 0.5 in
        let complexity_factor := 1.2 in
        (total_eave_m, complexity_factor)
      else eave_length_from_segments processed_segments perimeter_m
    else if roof_type =? "gable" then
      if Py.ltb 0 perimeter_m then
        let total_eave_m := perimeter_m * 0.5 in
        let complexity_factor := 1.0 in
        (total_eave_m, complexity_factor)
      else eave_length_from_segments processed_segments perimeter_m
    else eave_length_from_segments processed_segments perimeter_m
  end.

(** The [type_waste] dictionary. *)
Definition type_waste : list (string * Q) :=
  [ ("flat", 0.01); ("shed", 0.015); ("gable", 0.02); ("gambrel", 0.025);
    ("hip", 0.025); ("mansard", 0.03); ("complex", 0.035); ("unknown", 0.02) ].

(** [d.get(key, default)] on a dictionary with string keys. *)
Fixpoint dict_get (d : list (string * Q)) (key : string) (default : Q) : Q :=
  match d with
  | [] => default
  | (k, v) :: rest => if key =? k then v else dict_get rest key default
  end.

Definition _calculate_dynamic_waste_factor (roof_type : string)
    (complexity_factor : Q) (segment_count : nat) : Q :=
  let base_waste := dict_get type_waste roof_type 0.02 in
  let complexity_waste := (complexity_factor - 1.0) * 0.01 in
  let segment_waste :=
    Py.max 0 (inject_Z (Z.of_nat segment_count - 2) * 0.003) in
  let corner_waste :=
    if Py.str_in roof_type ["hip"; "mansard"; "complex"] then 0.005 else 0 in
  let total_waste := base_waste + complexity_waste + segment_waste + corner_waste in
  Py.min 0.06 (Py.max 0.01 total_waste).

Definition _estimate_downspouts_improved (roof_type : string)
    (total_eave_m : Q) (processed_segments : list ProcessedSegment) : Z :=
  let base_downspouts := Py.imax 2 (Py.ceil (total_eave_m * 3.28084 / 45)) in
  if roof_type =? "flat" then 1%Z
  else if roof_type =? "shed" then 2%Z
  else if Py.str_in roof_type ["gable"; "gambrel"] then
    Py.imax 2 (Py.int (inject_Z base_downspouts * 0.9))
  else if Py.str_in roof_type ["hip"; "mansard"] then
    Py.imax 4 (Py.int (inject_Z base_downspouts * 1.1))
  else if roof_type =? "complex" then
    Py.imax 4 (Py.int (inject_Z base_downspouts * 1.2))
  else base_downspouts.

(** The messages of [_generate_warnings_improved], one constructor per
    format string, carrying the values the string interpolates. *)
Inductive Warning : Type :=
| EaveExceedsPerimeter (total_eave_m perimeter_m : Q)
| EaveLowForPerimeter (total_eave_m perimeter_m : Q)
| FewSegments (segment_count : nat) (roof_type : string)
| RoofTypeUnknown
| LargeRoof (total_eave_m : Q)
| SmallRoof (total_eave_m : Q).

Definition _generate_warnings_improved (roof_type : string)
    (total_gutter_ft : Z) (total_eave_m : Q)
    (processed_segments : list ProcessedSegment) (whole_roof_stats : Stats)
    (perimeter_m : Q) : list Warning :=
  let warnings : list Warning := [] in
  let warnings :=
    if Py.ltb 0 perimeter_m then
      let eave_to_perimeter_ratio := total_eave_m / perimeter_m in
      if Py.ltb 1.0 eave_to_perimeter_ratio
      then (warnings ++ [EaveExceedsPerimeter total_eave_m perimeter_m])%list
      else if Py.ltb eave_to_perimeter_ratio 0.3
      then (warnings ++ [EaveLowForPerimeter total_eave_m perimeter_m])%list
      else warnings
    else warnings in
  let warnings :=
    if (List.length processed_segments <? 2)%nat
       && negb (Py.str_in roof_type ["flat"; "shed"])
    then (warnings ++ [FewSegments (List.length processed_segments) roof_type])%list
    else warnings in
  let warnings :=
    if roof_type =? "unknown" then (warnings ++ [RoofTypeUnknown])%list else warnings in
  let warnings :=
    if Py.ltb 100 total_eave_m then (warnings ++ [LargeRoof total_eave_m])%list
    else if Py.ltb total_eave_m 10 then (warnings ++ [SmallRoof total_eave_m])%list
    else warnings in
  warnings.

(** Lines 68-82 of [estimate_gutter_feet]: the conversion to feet, the
    waste factor and the final guard.  Returns
    [(total_gutter_ft, eave_length_ft)]. *)
Definition gutter_totals (total_eave_m perimeter_m dynamic_waste_factor : Q)
    : Z * Q :=
  let eave_length_ft := total_eave_m * 3.28084 in
  let total_gutter_ft_raw := total_eave_m * 3.28084 in
  let total_gutter_with_waste := total_gutter_ft_raw * (1 + dynamic_waste_factor) in
  let total_gutter_ft := Py.ceil total_gutter_with_waste in
  if Py.ltb 0 perimeter_m then
    let perimeter_ft := perimeter_m * 3.28084 in
    let max_gutter_ft := perimeter_ft * 1.3 in
    if Py.ltb max_gutter_ft (inject_Z total_gutter_ft) then
      (Py.ceil (perimeter_ft * 0.9 * (1 + dynamic_waste_factor)),
       perimeter_ft * 0.9)
    else (total_gutter_ft, eave_length_ft)
  else (total_gutter_ft, eave_length_ft).

(** The [estimated_range] dictionary. *)
Record EstimatedRange : Type := mkEstimatedRange {
  range_min : Z;
  range_max : Z;
  range_target : Z
}.

(** Lines 98-103 of [estimate_gutter_feet]. *)
Definition estimated_range_of (total_gutter_ft : Z) (complexity_factor : Q)
    : EstimatedRange :=
  let range_percentage := 0.08 + (complexity_factor - 1.0) * 0.03 in
  mkEstimatedRange
    (Py.imax 1 (Py.int (inject_Z total_gutter_ft * (1 - range_percentage))))
    (Py.int (inject_Z total_gutter_ft * (1 + range_percentage)))
    total_gutter_ft.

Record GutterEstimate : Type := mkGutterEstimate {
  eave_length_ft : Q;
  total_gutter_ft : Z;
  waste_factor : Q;
  roof_type : string;
  confidence : Q;
  warnings : list Warning;
  estimated_range : EstimatedRange;
  downspouts_estimate : Z;
  complexity_factor : Q;
  perimeter_m : Q;
  building_footprint_m2 : Q
}.

(** The [roof_classification] argument: keys [roof_type] and [confidence]. *)
Record RoofClassification : Type := mkRoofClassification {
  rc_roof_type : option string;
  rc_confidence : option Q
}.

(** The [building_data] argument, read through
    [raw_api_response.solarPotential.roofSegmentStats],
    [raw_api_response.solarPotential.wholeRoofStats] and
    [raw_api_response.center]; an absent object is the empty one. *)
Record BuildingData : Type := mkBuildingData {
  roofSegmentStats : list RoofSegment;
  wholeRoofStats : Stats;
  center : LatLng
}.

Section Pipeline.

Variables radians cos sqrt : Q -> Q.

(** The steps of [estimate_gutter_feet] that follow the computation of
    the perimeter and the footprint; none of them raises. *)
Definition estimate_from_perimeter (roof_segments : list RoofSegment)
    (whole_roof_stats : Stats) (building_center : LatLng)
    (validated_roof_type : string) (confidence : Q) (pf : Q * Q)
    : GutterEstimate :=
  let '(perimeter_m, building_footprint_m2) := pf in
  let processed_segments :=
    _process_roof_segments_improved radians cos sqrt roof_segments
                                    building_center perimeter_m in
  let '(total_eave_m, complexity_factor) :=
    _calculate_eave_length_improved validated_roof_type processed_segments
                                    perimeter_m building_footprint_m2 in
  let dynamic_waste_factor :=
    _calculate_dynamic_waste_factor validated_roof_type complexity_factor
                                    (List.length processed_segments) in
  let '(total_gutter_ft, eave_length_ft) :=
    gutter_totals total_eave_m perimeter_m dynamic_waste_factor in
  let downspouts_estimate :=
    _estimate_downspouts_improved validated_roof_type total_eave_m
                                  processed_segments in
  let warnings :=
    _generate_warnings_improved validated_roof_type total_gutter_ft
      total_eave_m processed_segments whole_roof_stats perimeter_m in
  let estimated_range := estimated_range_of total_gutter_ft complexity_factor in
  mkGutterEstimate
    (Py.round_digits eave_length_ft 2)
    total_gutter_ft
    dynamic_waste_factor
    validated_roof_type
    confidence
    warnings
    estimated_range
    downspouts_estimate
    complexity_factor
    perimeter_m
    building_footprint_m2.

(** The body of the [try] block of [estimate_gutter_feet]. *)
Definition estimate_body (building_data : BuildingData)
    (roof_classification : RoofClassification) : Py.result GutterEstimate :=
  let roof_type := Py.get (rc_roof_type roof_classification) "unknown" in
  let confidence := Py.get (rc_confidence roof_classification) 0.0 in
  let roof_segments := roofSegmentStats building_data in
  let whole_roof_stats := wholeRoofStats building_data in
  let building_center := center building_data in
  let validated_roof_type :=
    _validate_roof_type roof_type roof_segments building_center in
  pf <- _calculate_building_perimeter radians cos sqrt roof_segments
                                      building_center whole_roof_stats ;;
  Py.ret (estimate_from_perimeter roof_segments whole_roof_stats
            building_center validated_roof_type confidence pf).

(** [estimate_gutter_feet]: an exception of the body is raised again,
    wrapped in [Exception]. *)
Definition estimate_gutter_feet (building_data : BuildingData)
    (roof_classification : RoofClassification) : Py.result GutterEstimate :=
  match estimate_body building_data roof_classification with
  | inr estimate => Py.ret estimate
  | inl e => Py.raise (Py.Exception e)
  end.

End Pipeline.

(** The [type_complexity] dictionary of [_calculate_complexity_factor]. *)
Definition type_complexity : list (string * Q) :=
  [ ("flat", 0.8); ("shed", 0.9); ("gable", 1.0); ("gambrel", 1.1);
    ("hip", 1.2); ("mansard", 1.3); ("complex", 1.4); ("unknown", 1.2) ].

Definition _calculate_complexity_factor (roof_type : string)
    (processed_segments : list ProcessedSegment) (validation_methods : Z) : Q :=
  let base_complexity := dict_get type_complexity roof_type 1.2 in
  let base_complexity :=
    if (2 <? List.length processed_segments)%nat
    then base_complexity
         + 0.05 * inject_Z (Z.of_nat (List.length processed_segments) - 2)
    else base_complexity in
  let base_complexity :=
    if (3 <=? validation_methods)%Z then base_complexity * 0.95
    else if (validation_methods <=? 1)%Z then base_complexity * 1.1
    else base_complexity in
  Py.min 1.8 (Py.max 0.8 base_complexity).

(** The position of a warning in the order in which
    [_generate_warnings_improved] tests for them. *)
Definition warning_rank (w : Warning) : nat :=
  match w with
  | EaveExceedsPerimeter _ _ => 0
  | EaveLowForPerimeter _ _ => 1
  | FewSegments _ _ => 2
  | RoofTypeUnknown => 3
  | LargeRoof _ => 4
  | SmallRoof _ => 5
  end.

(** The warnings that compare the eave length with the perimeter. *)
Definition is_ratio_warning (w : Warning) : bool :=
  match w with
  | EaveExceedsPerimeter _ _ | EaveLowForPerimeter _ _ => true
  | _ => false
  end.

End GutterCalculator.

(** ** roof_classifier.py: geometry validation of the AI classification *)

Module RoofClassifier.

Definition _simple_segment_based_classification (segment_count : nat) : string :=
  if (segment_count =? 1)%nat then "shed"
  else if (segment_count =? 2)%nat then "gable"
  else if (segment_count =? 3)%nat then "gable"
  else if (segment_count =? 4)%nat then "hip"
  else if (segment_count =? 5)%nat then "hip"
  else if (6 <=? segment_count)%nat then "complex"
  else "unknown".

(** The value of [base_confidence] before the final clamp. *)
Definition base_confidence (segment_count : nat) (ai_type geometry_type : string)
    : Q :=
  let base_confidence := 0.8 in
  let base_confidence :=
    if (segment_count =? 2)%nat then base_confidence + 0.15
    else if (segment_count =? 4)%nat then base_confidence + 0.1
    else if (2 <=? segment_count)%nat && (segment_count <=? 5)%nat
    then base_confidence + 0.1
    else if (5 <? segment_count)%nat then base_confidence - 0.1
    else base_confidence in
  let base_confidence :=
    if ai_type =? geometry_type then base_confidence + 0.1
    else if Py.str_in ai_type ["gable"; "hip"]
            && Py.str_in geometry_type ["gable"; "hip"]
    then base_confidence + 0.05
    else if (ai_type =? "unknown") && negb (geometry_type =? "unknown")
    then base_confidence + 0.1
    else base_confidence in
  let base_confidence :=
    if (segment_count =? 2)%nat && (ai_type =? "hip") then base_confidence - 0.2
    else if (segment_count =? 4)%nat && (ai_type =? "gable")
    then base_confidence - 0.2
    else base_confidence in
  base_confidence.

Definition _calculate_simple_confidence (segment_count : nat)
    (ai_type geometry_type : string) : Q :=
  Py.max 0.4 (Py.min 0.95 (base_confidence segment_count ai_type geometry_type)).

Definition _validate_roof_type_geometry (ai_roof_type : string)
    (building_data : GutterCalculator.BuildingData) (ai_confidence : Q)
    : string * Q :=
  let roof_segments := GutterCalculator.roofSegmentStats building_data in
  match roof_segments with
  | [] => (ai_roof_type, ai_confidence * 0.8)
  | _ :: _ =>
    let segment_count := List.length roof_segments in
    let geometry_roof_type := _simple_segment_based_classification segment_count in
    let geometry_confidence :=
      _calculate_simple_confidence segment_count ai_roof_type geometry_roof_type in
    if Py.ltb (ai_confidence + 0.15) geometry_confidence then
      (geometry_roof_type, geometry_confidence)
    else if Py.ltb ai_confidence geometry_confidence then
      (geometry_roof_type, (ai_confidence + geometry_confidence) / 2)
    else
      (ai_roof_type, Py.max ai_confidence (geometry_confidence * 0.9))
  end.


(** [sum(pitches) / len(pitches) if pitches else 0]. *)
Definition avg_pitch_of (pitches : list Q) : Q :=
  match pitches with
  | [] => 0
  | _ :: _ => Py.sum pitches / inject_Z (Z.of_nat (List.length pitches))
  end.

Definition _predict_roof_type_from_geometry (segment_count unique_azimuths : Z)
    (pitches : list Q) (total_area : Q) : string :=
  let avg_pitch := avg_pitch_of pitches in
  if (segment_count =? 1)%Z then
    if Py.ltb avg_pitch 15 then "flat" else "shed"
  else if (segment_count =? 2)%Z then
    if (unique_azimuths =? 2)%Z then "gable" else "gambrel"
  else if (segment_count =? 3)%Z then
    if (3 <=? unique_azimuths)%Z then "hip" else "gable"
  else if (segment_count =? 4)%Z then
    if (3 <=? unique_azimuths)%Z then
      if existsb (fun p => Py.ltb 45 p) pitches then "mansard" else "hip"
    else "gable"
  else if (segment_count =? 5)%Z then
    if (4 <=? unique_azimuths)%Z then "hip" else "gable"
  else if (6 <=? segment_count)%Z then
    if (5 <=? unique_azimuths)%Z then "complex" else "hip"
  else if Py.ltb 200 total_area then "complex"
  else if Py.ltb avg_pitch 20 then "flat"
  else "gable".

End RoofClassifier.

(** ** services/estimator.py *)

Module Estimator.

(** The [boundingBox] object of [stats]. *)
Record Box : Type := mkBox {
  north : option Q;
  south : option Q;
  east : option Q;
  west : option Q
}.

Definition no_box : Box := mkBox None None None None.

(** Truth value of the dictionary: it has a key. *)
Definition box_truthy (b : Box) : bool :=
  match north b, south b, east b, west b with
  | None, None, None, None => false
  | _, _, _, _ => true
  end.

(** The [stats] argument of [estimate_gutter]; its segments carry
    [groundAreaMeters2]. *)
Record EstimatorStats : Type := mkEstimatorStats {
  stats_segments : list Stats;
  stats_boundingBox : Box
}.

(** The dictionary returned by [_finalize_estimation]. *)
Record Estimation : Type := mkEstimation {
  eave_length_m : Q;
  downspouts : Z;
  range_m : list Q
}.

(** [self.downspout_ratio]. *)
Definition downspout_ratio : Q := 10.

Definition _calculate_distance (coord1 coord2 : Q) : Q :=
  Py.abs (coord1 - coord2) * 111000.

Definition _finalize_estimation (eave_length : Q) (segments : list Stats)
    : Estimation :=
  let eave_length :=
    if Py.ltb 1000 eave_length then eave_length / 111000 else eave_length in
  let downspouts := Py.imax 2 (Py.round (eave_length / downspout_ratio)) in
  let range_buffer := eave_length * 0.1 in
  let range_m := [eave_length - range_buffer; eave_length + range_buffer] in
  mkEstimation (Py.round_digits eave_length 1) downspouts
               (map (fun r => Py.round_digits r 1) range_m).

(** [width] and [length] of the bounding box. *)
Definition box_width (bounding_box : Box) : Q :=
  _calculate_distance (Py.get (west bounding_box) 0) (Py.get (east bounding_box) 0).

Definition box_length (bounding_box : Box) : Q :=
  _calculate_distance (Py.get (south bounding_box) 0)
                      (Py.get (north bounding_box) 0).

Section EstimatorMath.

(** [math.sqrt] on its domain. *)
Variable sqrt : Q -> Q.

Definition _fallback_estimation (segments : list Stats) : Py.result Estimation :=
  match segments with
  | [] => Py.ret (_finalize_estimation 100.0 [])
  | _ :: _ =>
    let total_area :=
      Py.sum (map (fun seg => Py.get (groundAreaMeters2 seg) 0) segments) in
    root <- GutterCalculator.math_sqrt sqrt total_area ;;
    let estimated_perimeter := root * 4 in
    Py.ret (_finalize_estimation estimated_perimeter segments)
  end.

Definition _estimate_gable (segments : list Stats) (bounding_box : Box)
    : Py.result Estimation :=
  if negb (box_truthy bounding_box) then _fallback_estimation segments
  else
    let width := box_width bounding_box in
    let length := box_length bounding_box in
    let eave_length := Py.max width length * 2 in
    Py.ret (_finalize_estimation eave_length segments).

Definition _estimate_hip (segments : list Stats) (bounding_box : Box)
    : Py.result Estimation :=
  if negb (box_truthy bounding_box) then _fallback_estimation segments
  else
    let width := box_width bounding_box in
    let length := box_length bounding_box in
    let eave_length := (width + length) * 2 in
    Py.ret (_finalize_estimation eave_length segments).

Definition _estimate_flat (segments : list Stats) (bounding_box : Box)
    : Py.result Estimation :=
  if negb (box_truthy bounding_box) then _fallback_estimation segments
  else
    let width := box_width bounding_box in
    let length := box_length bounding_box in
    let eave_length := (width + length) * 2 * 0.3 in
    Py.ret (_finalize_estimation eave_length segments).

Definition _estimate_mansard (segments : list Stats) (bounding_box : Box)
    : Py.result Estimation :=
  if negb (box_truthy bounding_box) then _fallback_estimation segments
  else
    let width := box_width bounding_box in
    let length := box_length bounding_box in
    let eave_length := (width + length) * 2 * 1.5 in
    Py.ret (_finalize_estimation eave_length segments).

Definition _estimate_gambrel (segments : list Stats) (bounding_box : Box)
    : Py.result Estimation :=
  if negb (box_truthy bounding_box) then _fallback_estimation segments
  else
    let width := box_width bounding_box in
    let length := box_length bounding_box in
    let eave_length := (width + length) * 2 * 1.4 in
    Py.ret (_finalize_estimation eave_length segments).

Definition _estimate_shed (segments : list Stats) (bounding_box : Box)
    : Py.result Estimation :=
  if negb (box_truthy bounding_box) then _fallback_estimation segments
  else
    let width := box_width bounding_box in
    let length := box_length bounding_box in
    let eave_length := Py.max width length in
    Py.ret (_finalize_estimation eave_length segments).

Definition _estimate_complex (segments : list Stats) (bounding_box : Box)
    : Py.result Estimation :=
  if negb (box_truthy bounding_box) then _fallback_estimation segments
  else
    let width := box_width bounding_box in
    let length := box_length bounding_box in
    let base_perimeter := (width + length) * 2 in
    let complexity_factor :=
      1.0 + inject_Z (Z.of_nat (List.length segments) - 2) * 0.1 in
    let eave_length := base_perimeter * complexity_factor in
    Py.ret (_finalize_estimation eave_length segments).

Definition estimate_gutter (roof_type : string) (stats : EstimatorStats)
    : Py.result Estimation :=
  let segments := stats_segments stats in
  let bounding_box := stats_boundingBox stats in
  if roof_type =? "gable" then _estimate_gable segments bounding_box
  else if roof_type =? "hip" then _estimate_hip segments bounding_box
  else if roof_type =? "flat" then _estimate_flat segments bounding_box
  else if roof_type =? "mansard" then _estimate_mansard segments bounding_box
  else if roof_type =? "gambrel" then _estimate_gambrel segments bounding_box
  else if roof_type =? "shed" then _estimate_shed segments bounding_box
  else if roof_type =? "complex" then _estimate_complex segments bounding_box
  else _estimate_gable segments bounding_box.

End EstimatorMath.

End Estimator.

(** ** Concrete stand-ins for the mathematical library

    Rational approximations of [math.radians], [math.cos] and [math.sqrt],
    used to run the embedded functions on concrete inputs. *)

Module Sample.

(** Degrees to radians, with [355/113] for pi. *)
Definition radians (d : Q) : Q := d * (355 # 113) / 180.

(** The Taylor polynomial of the cosine, to degree six. *)
Definition cos (x : Q) : Q :=
  1 - x * x / 2 + x * x * x * x / 24 - x * x * x * x * x * x / 720.

(** Square root to three decimals, rounded down. *)
Definition sqrt (x : Q) : Q :=
  inject_Z (Z.sqrt (Qfloor (x * 1000000))) / 1000.

(** Square root to three decimals, rounded up. *)
Definition sqrt_up (x : Q) : Q := sqrt x + (1 # 1000).

End Sample.

(** ** Well-formed inputs *)

(** A corner of a bounding box that has both coordinates. *)
Definition corner_complete (c : LatLng) : bool :=
  match latitude c, longitude c with
  | Some _, Some _ => true
  | _, _ => false
  end.

(** A segment whose bounding box, when it has both corners, has all four
    coordinates. *)
Definition bbox_complete (seg : RoofSegment) : bool :=
  match boundingBox seg with
  | Some b =>
    match sw b, ne b with
    | Some bsw, Some bne => corner_complete bsw && corner_complete bne
    | _, _ => true
    end
  | None => true
  end.

(** A segment whose bounding box has both corners, the test
    ['sw' in bbox and 'ne' in bbox]. *)
Definition has_corners (seg : RoofSegment) : bool :=
  match boundingBox seg with
  | Some b =>
    match sw b, ne b with
    | Some _, Some _ => true
    | _, _ => false
    end
  | None => false
  end.

(** Whole-roof statistics whose ground area, when present, is not negative. *)
Definition area_valid (whole_roof_stats : Stats) : bool :=
  match groundAreaMeters2 whole_roof_stats with
  | Some a => Qle_bool 0 a
  | None => true
  end.

(** ** Concrete inputs *)

Module Inputs.

(** A segment without bounding box: pitch, azimuth and ground area. *)
Definition segment (pitch az area : Q) : RoofSegment :=
  mkRoofSegment (Some pitch) (Some az) (Some (mkStats (Some area))) None.

(** A processed segment of the given eave length and ground area. *)
Definition processed (eave area : Q) : GutterCalculator.ProcessedSegment :=
  GutterCalculator.mkProcessedSegment area 30 0 eave (area / eave) 30 no_bbox.

Definition four_processed : list GutterCalculator.ProcessedSegment :=
  [processed 10 40; processed 8 30; processed 10 40; processed 8 30].

(** The center of a building at latitude 40, longitude -75. *)
Definition a_center : LatLng := mkLatLng (Some 40) (Some (-75)).

(** Two opposite slopes of 50 square meters each. *)
Definition two_slopes : list RoofSegment :=
  [segment 30 0 50; segment 30 180 50].

(** One slope of 50 square meters. *)
Definition one_slope : list RoofSegment := [segment 30 0 50].

(** No segments, no whole-roof statistics, no center. *)
Definition no_data : GutterCalculator.BuildingData :=
  GutterCalculator.mkBuildingData [] no_stats no_latlng.

(** Two slopes under a roof of 100 square meters. *)
Definition small_house : GutterCalculator.BuildingData :=
  GutterCalculator.mkBuildingData two_slopes (mkStats (Some 100)) a_center.

(** A flat segment of 50 square meters followed by a segment that has
    neither a bounding box nor a ground area. *)
Definition with_empty_segment : list RoofSegment :=
  [segment 0 0 50; segment 0 90 0].

(** An external classification: hip, with confidence 0.7. *)
Definition hip_70 : GutterCalculator.RoofClassification :=
  GutterCalculator.mkRoofClassification (Some "hip") (Some 0.7).

(** What the pipeline returns for [small_house] classified [hip_70]. *)
Definition small_house_estimate : GutterCalculator.GutterEstimate :=
  Eval vm_compute in
    match GutterCalculator.estimate_gutter_feet Sample.radians Sample.cos
            Sample.sqrt small_house hip_70 with
    | inr e => e
    | inl _ =>
      GutterCalculator.mkGutterEstimate 0 0 0 "" 0 []
        (GutterCalculator.mkEstimatedRange 0 0 0) 0 0 0 0
    end.

(** A house of two slopes whose segments have no ground area, with or
    without a building center. *)
Definition bare_slopes : list RoofSegment :=
  [mkRoofSegment (Some 30) (Some 0) None None;
   mkRoofSegment (Some 30) (Some 180) None None].

(** A bounding box of 0.0002 by 0.0001 degrees, and one of 0.02 by 0.01. *)
Definition house_box : Estimator.Box :=
  Estimator.mkBox (Some 40.0001) (Some 40) (Some (-74.9998)) (Some (-75)).

Definition block_box : Estimator.Box :=
  Estimator.mkBox (Some 40.01) (Some 40) (Some (-74.98)) (Some (-75)).

End Inputs.

(** * Properties *)

Import GutterCalculator.

(** ** Comparisons and rounding *)

Lemma ltb_lt (x y : Q) : Py.ltb x y = true <-> x < y.
Proof.
  unfold Py.ltb. rewrite negb_true_iff. split.
  - intros H. apply Qnot_le_lt. intros Hle.
    apply Qle_bool_iff in Hle. congruence.
  - intros H. destruct (Qle_bool y x) eqn:E; [|reflexivity].
    apply Qle_bool_iff in E. exfalso. exact (Qlt_not_le _ _ H E).
Qed.

Lemma ltb_ge (x y : Q) : Py.ltb x y = false <-> y <= x.
Proof.
  unfold Py.ltb. rewrite negb_false_iff. apply Qle_bool_iff.
Qed.

Lemma ltb_spec (x y : Q) : reflect (x < y) (Py.ltb x y).
Proof.
  destruct (Py.ltb x y) eqn:E; constructor.
  - now apply ltb_lt.
  - apply ltb_ge in E. now apply Qle_not_lt.
Qed.

Lemma is_zero_eq (x : Q) : Py.is_zero x = true <-> x == 0.
Proof. unfold Py.is_zero. apply Qeq_bool_iff. Qed.

Lemma imax_max (a b : Z) : Py.imax a b = Z.max a b.
Proof. unfold Py.imax. destruct (Z.ltb_spec a b); lia. Qed.

Lemma int_nonneg (x : Q) : 0 <= x -> Py.int x = Qfloor x.
Proof.
  intros H. unfold Py.int.
  destruct (Qle_bool 0 x) eqn:E; [reflexivity|].
  apply Qle_bool_iff in H. congruence.
Qed.

(** Closed comparisons of rationals, by evaluation. *)
Ltac q_le := apply Qle_bool_iff; vm_compute; reflexivity.
Ltac q_lt := apply ltb_lt; vm_compute; reflexivity.

(** An integer below a rational is below its ceiling. *)
Lemma le_ceiling (z : Z) (x : Q) : inject_Z z <= x -> (z <= Qceiling x)%Z.
Proof.
  intros H. rewrite <- (Qceiling_Z z). now apply Qceiling_resp_le.
Qed.

Lemma floor_le_int (z : Z) (x : Q) : x <= inject_Z z -> (Qfloor x <= z)%Z.
Proof.
  intros H. rewrite <- (Qfloor_Z z). now apply Qfloor_resp_le.
Qed.

Lemma int_le_floor (z : Z) (x : Q) : inject_Z z <= x -> (z <= Qfloor x)%Z.
Proof.
  intros H. rewrite <- (Qfloor_Z z). now apply Qfloor_resp_le.
Qed.

(** ** Eave length by roof type *)

(** The complexity factor of the segment-based path depends on the number
    of segments alone. *)
Lemma eave_length_from_segments_complexity segs p :
  let n := List.length segs in
  snd (eave_length_from_segments segs p) =
    if (n <=? 2)%nat then 1.0 else if (n <=? 4)%nat then 1.2 else 1.4.
Proof. reflexivity. Qed.

(** The eave length of the segment-based path: the sum of the segments'
    eave lengths, replaced by [0.9] of the perimeter when the perimeter is
    positive and the sum exceeds [1.2] of it. *)
Lemma eave_length_from_segments_cap segs p :
  (0 < p /\ p * 1.2 < segment_eave_sum segs ->
     fst (eave_length_from_segments segs p) = p * 0.9) /\
  (~ (0 < p /\ p * 1.2 < segment_eave_sum segs) ->
     fst (eave_length_from_segments segs p) = segment_eave_sum segs).
Proof.
  unfold eave_length_from_segments; cbn [fst].
  destruct (ltb_spec 0 p) as [Hp | Hp];
    [destruct (ltb_spec (p * 1.2) (segment_eave_sum segs)) as [Hs | Hs]|];
    split; intros H; try reflexivity; tauto.
Qed.

(** C1, as amended.  On a non-empty list of processed segments: a hip or
    gable roof with a positive perimeter gets half the perimeter, with
    complexity 1.2 (hip) or 1.0 (gable); every other roof type, and hip or
    gable without a positive perimeter, gets the segment sum with its cap
    and the complexity by segment count.  On an empty list the result is
    [(0.0, 1.0)] whatever the roof type and the perimeter. *)
Theorem eave_length_by_roof_type (rt : string) (segs : list ProcessedSegment)
    (p footprint : Q) :
  let r := _calculate_eave_length_improved rt segs p footprint in
  let n := List.length segs in
  (segs = [] -> r = (0.0, 1.0)) /\
  (segs <> [] ->
     (rt = "hip" -> 0 < p -> r = (p * 0.5, 1.2)) /\
     (rt = "gable" -> 0 < p -> r = (p * 0.5, 1.0)) /\
     ((rt <> "hip" /\ rt <> "gable") \/ ~ 0 < p ->
        (0 < p /\ p * 1.2 < segment_eave_sum segs -> fst r = p * 0.9) /\
        (~ (0 < p /\ p * 1.2 < segment_eave_sum segs) ->
           fst r = segment_eave_sum segs) /\
        snd r = if (n <=? 2)%nat then 1.0
                else if (n <=? 4)%nat then 1.2 else 1.4)).
Proof.
  intros r n. split.
  - intros ->. reflexivity.
  - intros Hne. subst r n.
    destruct segs as [|s segs']; [congruence|].
    unfold _calculate_eave_length_improved.
    repeat split.
    + intros -> Hp. apply ltb_lt in Hp. cbn. now rewrite Hp.
    + intros -> Hp. apply ltb_lt in Hp. cbn. now rewrite Hp.
    + destruct H as [[Hh Hg] | Hp].
      * apply String.eqb_neq in Hh, Hg. rewrite Hh, Hg.
        apply eave_length_from_segments_cap.
      * destruct (ltb_spec 0 p); [tauto|].
        destruct (rt =? "hip"); [|destruct (rt =? "gable")];
          apply eave_length_from_segments_cap.
    + destruct H as [[Hh Hg] | Hp].
      * apply String.eqb_neq in Hh, Hg. rewrite Hh, Hg.
        apply eave_length_from_segments_cap.
      * destruct (ltb_spec 0 p); [tauto|].
        destruct (rt =? "hip"); [|destruct (rt =? "gable")];
          apply eave_length_from_segments_cap.
    + destruct H as [[Hh Hg] | Hp].
      * apply String.eqb_neq in Hh, Hg. rewrite Hh, Hg.
        apply eave_length_from_segments_complexity.
      * destruct (ltb_spec 0 p); [tauto|].
        destruct (rt =? "hip"); [|destruct (rt =? "gable")];
          apply eave_length_from_segments_complexity.
Qed.

Lemma eave_length_by_roof_type_witness :
  _calculate_eave_length_improved "hip" Inputs.four_processed 50 150
  = (50 * 0.5, 1.2).
Proof.
  refine (proj1 (proj2 (eave_length_by_roof_type "hip" Inputs.four_processed
                          50 150) _) eq_refl eq_refl).
  discriminate.
Defined.

(** C1 as stated fails on an empty list of processed segments: a hip roof
    with perimeter 40 gets [(0.0, 1.0)], not [(40 * 0.5, 1.2)]. *)
Lemma eave_length_hip_without_segments :
  0 < 40 /\
  _calculate_eave_length_improved "hip" [] 40 100 = (0.0, 1.0) /\
  ~ fst (_calculate_eave_length_improved "hip" [] 40 100) == 40 * 0.5 /\
  ~ snd (_calculate_eave_length_improved "hip" [] 40 100) == 1.2.
Proof.
  repeat split; try reflexivity; cbn; intros H; discriminate H.
Qed.

(** ** Downspouts *)

Lemma str_in_cons (x y : string) (l : list string) :
  Py.str_in x (y :: l) = (x =? y) || Py.str_in x l.
Proof. reflexivity. Qed.

Lemma base_downspouts_ge_2 (z : Z) : (2 <= Py.imax 2 z)%Z.
Proof. rewrite imax_max. lia. Qed.

(** C7, as amended: the products are truncated ([int]), not rounded; the
    base is at least 2, so truncation is the floor. *)
Theorem downspouts_by_roof_type (rt : string) (total_eave_m : Q)
    (segs : list ProcessedSegment) :
  let base := Z.max 2 (Qceiling (total_eave_m * 3.28084 / 45)) in
  let d := _estimate_downspouts_improved rt total_eave_m segs in
  (rt = "flat" -> d = 1%Z) /\
  (rt = "shed" -> d = 2%Z) /\
  (rt = "gable" \/ rt = "gambrel" ->
     d = Z.max 2 (Qfloor (inject_Z base * 0.9))) /\
  (rt = "hip" \/ rt = "mansard" ->
     d = Z.max 4 (Qfloor (inject_Z base * 1.1))) /\
  (rt = "complex" -> d = Z.max 4 (Qfloor (inject_Z base * 1.2))) /\
  (~ In rt ["flat"; "shed"; "gable"; "gambrel"; "hip"; "mansard"; "complex"] ->
     d = base) /\
  (1 <= d)%Z.
Proof.
  intros base d.
  assert (Hb : (2 <= base)%Z) by (subst base; lia).
  assert (Hq : forall k : Q, 0 <= k ->
             Py.int (inject_Z base * k) = Qfloor (inject_Z base * k)).
  { intros k Hk. apply int_nonneg. apply Qmult_le_0_compat; [|exact Hk].
    change 0 with (inject_Z 0). rewrite <- Zle_Qle. lia. }
  assert (Hd : d = _estimate_downspouts_improved rt total_eave_m segs)
    by reflexivity.
  unfold _estimate_downspouts_improved in Hd.
  rewrite !imax_max in Hd. fold base in Hd.
  rewrite !Hq in Hd by (intros H; discriminate H).
  repeat split.
  - intros ->. exact Hd.
  - intros ->. exact Hd.
  - intros [-> | ->]; exact Hd.
  - intros [-> | ->]; exact Hd.
  - intros ->. exact Hd.
  - intros Hn. cbn [In] in Hn.
    rewrite !str_in_cons in Hd. cbn [Py.str_in existsb] in Hd.
    repeat match type of Hd with
    | context [?a =? ?b] =>
        destruct (String.eqb_spec a b) as [-> | _];
        [exfalso; apply Hn; tauto|]
    end.
    exact Hd.
  - rewrite Hd.
    repeat match goal with
    | |- context [if ?b then _ else _] => destruct b
    end; lia.
Qed.

(** C7 as stated fails for a gable roof with an eave of 30 m: the base is
    3, the code returns [max(2, int(2.7)) = 2], the claim asks for
    [max(2, round(2.7)) = 3]. *)
Lemma downspouts_gable_truncates :
  let base := Py.imax 2 (Py.ceil (30 * 3.28084 / 45)) in
  base = 3%Z /\
  _estimate_downspouts_improved "gable" 30 [] = 2%Z /\
  Py.imax 2 (Py.round (inject_Z base * 0.9)) = 3%Z.
Proof. repeat split; vm_compute; reflexivity. Qed.

Lemma downspouts_by_roof_type_witness :
  _estimate_downspouts_improved "hip" 25 []
  = Z.max 4 (Qfloor (inject_Z (Z.max 2 (Qceiling (25 * 3.28084 / 45))) * 1.1)).
Proof.
  exact (proj1 (proj2 (proj2 (proj2 (downspouts_by_roof_type "hip" 25 []))))
           (or_introl eq_refl)).
Defined.

(** ** Roof type validation *)

(** C3, as amended.  The table applies when the building center is present
    and the segments' total ground area is positive; without either, the
    external guess is returned unchanged.  The rows are tried in order, so
    the row for more than four segments applies when fewer than three
    azimuths are distinct. *)
Theorem validate_roof_type_table (rt : string) (segs : list RoofSegment)
    (c : LatLng) :
  let n := List.length segs in
  let u := unique_azimuths segs in
  let r := _validate_roof_type rt segs c in
  (segs <> [] -> latlng_truthy c = true -> 0 < total_area segs ->
     (n = 1%nat -> r = if (rt =? "shed") || (rt =? "flat") then rt else "shed") /\
     (n = 2%nat -> r = "gable") /\
     ((4 <= n)%nat -> (3 <= u)%nat ->
        r = if Py.str_in rt ["hip"; "mansard"; "complex"] then rt else "hip") /\
     ((4 < n)%nat -> (u < 3)%nat -> r = "complex") /\
     (n = 3%nat \/ (n = 4%nat /\ (u < 3)%nat) -> r = rt)) /\
  (segs = [] \/ latlng_truthy c = false \/ ~ 0 < total_area segs -> r = rt).
Proof.
  intros n u r. split.
  - intros Hne Hc Ha. apply ltb_lt in Ha.
    subst r. unfold _validate_roof_type.
    destruct segs as [|s segs']; [congruence|].
    rewrite Hc, Ha. fold n. fold u.
    repeat split.
    + intros ->. cbn [Nat.eqb].
      destruct (rt =? "shed"); [reflexivity|]. now destruct (rt =? "flat").
    + intros ->. cbn [Nat.eqb].
      destruct (String.eqb_spec rt "gable") as [-> | _]; reflexivity.
    + intros Hn Hu.
      destruct (Nat.eqb_spec n 1); [lia|]. destruct (Nat.eqb_spec n 2); [lia|].
      destruct (Nat.leb_spec 4 n); [|lia]. destruct (Nat.leb_spec 3 u); [|lia].
      cbn [andb]. now destruct (Py.str_in rt _).
    + intros Hn Hu.
      destruct (Nat.eqb_spec n 1); [lia|]. destruct (Nat.eqb_spec n 2); [lia|].
      destruct (Nat.leb_spec 4 n); [|lia]. destruct (Nat.leb_spec 3 u); [lia|].
      cbn [andb]. destruct (Nat.ltb_spec 4 n); [|lia].
      destruct (String.eqb_spec rt "complex") as [-> | _]; reflexivity.
    + intros Hn.
      destruct (Nat.eqb_spec n 1); [lia|]. destruct (Nat.eqb_spec n 2); [lia|].
      destruct (Nat.leb_spec 4 n); destruct (Nat.leb_spec 3 u);
        cbn [andb]; try lia; destruct (Nat.ltb_spec 4 n); try lia; reflexivity.
  - intros H. subst r. unfold _validate_roof_type.
    destruct segs as [|s segs']; [reflexivity|].
    destruct H as [H | [H | H]]; [discriminate H | now rewrite H |].
    destruct (latlng_truthy c); [|reflexivity].
    destruct (ltb_spec 0 (total_area (s :: segs'))); [tauto | reflexivity].
Qed.

Lemma validate_roof_type_table_witness :
  _validate_roof_type "hip" Inputs.two_slopes Inputs.a_center = "gable".
Proof.
  refine (proj1 (proj2 (proj1 (validate_roof_type_table "hip" Inputs.two_slopes
                                 Inputs.a_center) _ eq_refl eq_refl)) eq_refl).
  discriminate.
Defined.

(** C3 as stated fails when the building center is absent: a single
    segment with the guess "hip" (neither "shed" nor "flat") stays "hip". *)
Lemma validate_roof_type_without_center :
  List.length Inputs.one_slope = 1%nat /\
  "hip" <> "shed" /\ "hip" <> "flat" /\
  _validate_roof_type "hip" Inputs.one_slope no_latlng = "hip" /\
  _validate_roof_type "hip" Inputs.one_slope no_latlng <> "shed".
Proof. repeat split; try reflexivity; discriminate. Qed.

(** ** Confidence fusion *)

Import RoofClassifier.

(** Before the clamp the geometry confidence is already between 0.7 and
    1.05, whatever the segment count and the two types. *)
Lemma base_confidence_range (n : nat) (ai_type geometry_type : string) :
  0.7 <= base_confidence n ai_type geometry_type <= 1.05.
Proof.
  unfold base_confidence.
  repeat match goal with
  | |- context [Nat.eqb ?a ?b] => destruct (Nat.eqb a b)
  | |- context [Nat.ltb ?a ?b] => destruct (Nat.ltb a b)
  | |- context [Nat.leb ?a ?b] => destruct (Nat.leb a b)
  | |- context [String.eqb ?a ?b] => destruct (String.eqb a b)
  | |- context [Py.str_in ?a ?l] => destruct (Py.str_in a l)
  end; split; q_le.
Qed.

(** The clamp of the code, to [0.4, 0.95], and the clamp to [0.3, 0.95]
    give the same number: the lower bound is never reached. *)
Lemma simple_confidence_clamp (n : nat) (ai_type geometry_type : string) :
  let g := _calculate_simple_confidence n ai_type geometry_type in
  g = Py.max 0.3 (Py.min 0.95 (base_confidence n ai_type geometry_type)) /\
  0.3 <= g <= 0.95.
Proof.
  unfold _calculate_simple_confidence.
  destruct (base_confidence_range n ai_type geometry_type) as [Hlo Hhi].
  set (b := base_confidence n ai_type geometry_type) in *.
  assert (Hm : 0.7 <= Py.min 0.95 b <= 0.95).
  { unfold Py.min. destruct (ltb_spec b 0.95) as [Hb | Hb].
    - split; [exact Hlo | now apply Qlt_le_weak].
    - split; q_le. }
  destruct Hm as [Hm1 Hm2].
  set (m := Py.min 0.95 b) in *.
  assert (H4 : Py.ltb 0.4 m = true).
  { apply ltb_lt. apply Qlt_le_trans with 0.7; [q_lt | exact Hm1]. }
  assert (H3 : Py.ltb 0.3 m = true).
  { apply ltb_lt. apply Qlt_le_trans with 0.7; [q_lt | exact Hm1]. }
  unfold Py.max. rewrite H4, H3. repeat split.
  - apply Qle_trans with 0.7; [q_le | exact Hm1].
  - exact Hm2.
Qed.

(** C6.  With segments, the geometry confidence is the base confidence
    clamped into [0.3, 0.95], and the result follows the three-way fusion
    rule; without segments, the AI type passes through with its confidence
    multiplied by 0.8. *)
Theorem confidence_fusion (ai_type : string) (bd : BuildingData) (ai_conf : Q) :
  let segs := roofSegmentStats bd in
  let n := List.length segs in
  let gt := _simple_segment_based_classification n in
  let g := _calculate_simple_confidence n ai_type gt in
  let r := _validate_roof_type_geometry ai_type bd ai_conf in
  (segs <> [] ->
     g = Py.max 0.3 (Py.min 0.95 (base_confidence n ai_type gt)) /\
     0.3 <= g <= 0.95 /\
     (ai_conf + 0.15 < g -> r = (gt, g)) /\
     (~ ai_conf + 0.15 < g -> ai_conf < g -> r = (gt, (ai_conf + g) / 2)) /\
     (~ ai_conf < g -> r = (ai_type, Py.max ai_conf (g * 0.9)))) /\
  (segs = [] -> r = (ai_type, ai_conf * 0.8)).
Proof.
  intros segs n gt g r. split.
  - intros Hne.
    destruct (simple_confidence_clamp n ai_type gt) as [Hg Hr].
    split; [exact Hg|]. split; [exact Hr|].
    subst r. unfold _validate_roof_type_geometry. fold segs.
    destruct segs as [|s segs'] eqn:Es; [congruence|].
    fold n. fold gt. fold g.
    destruct (ltb_spec (ai_conf + 0.15) g) as [H1 | H1];
      destruct (ltb_spec ai_conf g) as [H2 | H2];
      repeat split; intros; try reflexivity; first [tauto | exfalso; lra].
  - intros Hs. subst r. unfold _validate_roof_type_geometry. fold segs.
    now rewrite Hs.
Qed.

Lemma confidence_fusion_witness :
  _validate_roof_type_geometry "hip" Inputs.small_house 0.7
  = ("gable", (0.7 + _calculate_simple_confidence 2 "hip" "gable") / 2).
Proof.
  refine (proj1 (proj2 (proj2 (proj2 (proj1 (confidence_fusion "hip"
            Inputs.small_house 0.7) _)))) _ eq_refl).
  - discriminate.
  - intros H. discriminate H.
Defined.

(** ** The pipeline *)

Section PipelineFacts.

Variables radians cos sqrt : Q -> Q.

(** The pipeline returns exactly when the perimeter step does, and then
    returns what the remaining steps build. *)
Lemma estimate_gutter_feet_returns (bd : BuildingData) (rc : RoofClassification)
    (e : GutterEstimate) :
  estimate_gutter_feet radians cos sqrt bd rc = inr e <->
  exists pf,
    _calculate_building_perimeter radians cos sqrt (roofSegmentStats bd)
      (center bd) (wholeRoofStats bd) = inr pf /\
    e = estimate_from_perimeter radians cos sqrt (roofSegmentStats bd)
          (wholeRoofStats bd) (center bd)
          (_validate_roof_type (Py.get (rc_roof_type rc) "unknown")
             (roofSegmentStats bd) (center bd))
          (Py.get (rc_confidence rc) 0.0) pf.
Proof.
  unfold estimate_gutter_feet, estimate_body.
  destruct (_calculate_building_perimeter radians cos sqrt (roofSegmentStats bd)
              (center bd) (wholeRoofStats bd)) as [ex | pf]; cbn.
  - split; [discriminate | intros (pf & H & _); discriminate H].
  - split.
    + intros H. injection H as <-. now exists pf.
    + intros (pf' & H & ->). injection H as ->. reflexivity.
Qed.

(** The fields of the estimate, in terms of the steps that compute them. *)
Lemma estimate_from_perimeter_fields segs wrs c vt conf p fp :
  let e := estimate_from_perimeter radians cos sqrt segs wrs c vt conf (p, fp) in
  let ps := _process_roof_segments_improved radians cos sqrt segs c p in
  let ec := _calculate_eave_length_improved vt ps p fp in
  let w := _calculate_dynamic_waste_factor vt (snd ec) (List.length ps) in
  let tg := gutter_totals (fst ec) p w in
  eave_length_ft e = Py.round_digits (snd tg) 2 /\
  total_gutter_ft e = fst tg /\
  waste_factor e = w /\
  roof_type e = vt /\
  confidence e = conf /\
  warnings e = _generate_warnings_improved vt (fst tg) (fst ec) ps wrs p /\
  estimated_range e = estimated_range_of (fst tg) (snd ec) /\
  downspouts_estimate e = _estimate_downspouts_improved vt (fst ec) ps /\
  complexity_factor e = snd ec /\
  perimeter_m e = p /\
  building_footprint_m2 e = fp.
Proof.
  cbv zeta. unfold estimate_from_perimeter.
  destruct (_calculate_eave_length_improved vt
              (_process_roof_segments_improved radians cos sqrt segs c p) p fp)
    as [total_eave_m cf].
  cbn [fst snd].
  destruct (gutter_totals total_eave_m p
              (_calculate_dynamic_waste_factor vt cf
                 (List.length (_process_roof_segments_improved radians cos
                                 sqrt segs c p)))) as [tgf elf].
  cbn. repeat split.
Qed.

End PipelineFacts.

(** ** Waste factor and the final guard *)

Lemma dynamic_waste_factor_bounds (rt : string) (cf : Q) (n : nat) :
  0.01 <= _calculate_dynamic_waste_factor rt cf n <= 0.06.
Proof.
  unfold _calculate_dynamic_waste_factor.
  set (t := _ + _ + _ + _).
  unfold Py.min, Py.max.
  destruct (ltb_spec 0.01 t) as [H1 | H1].
  - destruct (ltb_spec t 0.06) as [H2 | H2].
    + split; now apply Qlt_le_weak.
    + split; q_le.
  - destruct (ltb_spec 0.01 0.06) as [H2 | H2].
    + split; q_le.
    + split; q_le.
Qed.

Lemma gutter_totals_bound (eave p w : Q) :
  0 < p -> 0 <= w ->
  (fst (gutter_totals eave p w) <= Qceiling (p * 3.28084 * 1.3 * (1 + w)))%Z.
Proof.
  intros Hp Hw. unfold gutter_totals.
  apply ltb_lt in Hp as Hpb. rewrite Hpb.
  assert (Hpf : 0 < p * 3.28084) by lra.
  set (pf := p * 3.28084) in *.
  destruct (ltb_spec (pf * 1.3) (inject_Z (Py.ceil (eave * 3.28084 * (1 + w)))))
    as [Hc | Hc]; cbn [fst].
  - apply Qceiling_resp_le.
    apply Qmult_le_compat_r; lra.
  - apply le_ceiling.
    apply Qnot_lt_le in Hc.
    apply Qle_trans with (pf * 1.3); [exact Hc|].
    rewrite <- (Qmult_1_r (pf * 1.3)) at 1.
    apply Qmult_le_l; lra.
Qed.

(** C2.  With a positive perimeter, the preliminary total is the ceiling of
    the eave length in feet with waste; when it exceeds 1.3 times the
    perimeter in feet, the total and the eave length are recomputed from
    0.9 times the perimeter; and the total returned by the pipeline never
    exceeds the ceiling of 1.3 times the perimeter in feet with waste. *)
Theorem total_gutter_guard :
  (forall (rt : string) (cf : Q) (n : nat) (total_eave_m p : Q),
     0 < p ->
     let w := _calculate_dynamic_waste_factor rt cf n in
     let perimeter_ft := p * 3.28084 in
     let eave_ft := total_eave_m * 3.28084 in
     let preliminary := Qceiling (eave_ft * (1 + w)) in
     let r := gutter_totals total_eave_m p w in
     (perimeter_ft * 1.3 < inject_Z preliminary ->
        r = (Qceiling (perimeter_ft * 0.9 * (1 + w)), perimeter_ft * 0.9)) /\
     (~ perimeter_ft * 1.3 < inject_Z preliminary -> r = (preliminary, eave_ft)) /\
     (fst r <= Qceiling (perimeter_ft * 1.3 * (1 + w)))%Z) /\
  (forall (radians cos sqrt : Q -> Q) (bd : BuildingData)
          (rc : RoofClassification) (e : GutterEstimate),
     estimate_gutter_feet radians cos sqrt bd rc = inr e ->
     0 < perimeter_m e ->
     (total_gutter_ft e
      <= Qceiling (perimeter_m e * 3.28084 * 1.3 * (1 + waste_factor e)))%Z).
Proof.
  split.
  - intros rt cf n total_eave_m p Hp w perimeter_ft eave_ft preliminary r.
    assert (Hw : 0 <= w).
    { apply Qle_trans with 0.01; [q_le|]. apply dynamic_waste_factor_bounds. }
    repeat split.
    + intros H. subst r. unfold gutter_totals.
      apply ltb_lt in Hp. rewrite Hp. apply ltb_lt in H.
      fold perimeter_ft. fold eave_ft. unfold Py.ceil. fold preliminary.
      now rewrite H.
    + intros H. subst r. unfold gutter_totals.
      apply ltb_lt in Hp. rewrite Hp.
      fold perimeter_ft. fold eave_ft. unfold Py.ceil. fold preliminary.
      destruct (ltb_spec (perimeter_ft * 1.3) (inject_Z preliminary));
        [tauto | reflexivity].
    + apply gutter_totals_bound; assumption.
  - intros radians cos sqrt bd rc e He Hp.
    apply estimate_gutter_feet_returns in He as ([p fp] & _ & ->).
    pose proof (estimate_from_perimeter_fields radians cos sqrt
                  (roofSegmentStats bd) (wholeRoofStats bd) (center bd)
                  (_validate_roof_type (Py.get (rc_roof_type rc) "unknown")
                     (roofSegmentStats bd) (center bd))
                  (Py.get (rc_confidence rc) 0.0) p fp) as F.
    cbv zeta in F.
    destruct F as (_ & Ft & Fw & _ & _ & _ & _ & _ & _ & Fp & _).
    rewrite Fp in Hp |- *. rewrite Ft, Fw.
    apply gutter_totals_bound; [exact Hp|].
    apply Qle_trans with 0.01; [q_le|]. apply dynamic_waste_factor_bounds.
Qed.

Lemma total_gutter_guard_witness :
  (fst (gutter_totals 20 40 (_calculate_dynamic_waste_factor "gable" 1.0 2))
   <= Qceiling (40 * 3.28084 * 1.3
                * (1 + _calculate_dynamic_waste_factor "gable" 1.0 2)))%Z /\
  (total_gutter_ft Inputs.small_house_estimate
   <= Qceiling (perimeter_m Inputs.small_house_estimate * 3.28084 * 1.3
                * (1 + waste_factor Inputs.small_house_estimate)))%Z.
Proof.
  split.
  - apply (proj1 total_gutter_guard "gable" 1.0 2%nat 20 40). reflexivity.
  - apply (proj2 total_gutter_guard Sample.radians Sample.cos Sample.sqrt
             Inputs.small_house Inputs.hip_70 Inputs.small_house_estimate).
    + vm_compute. reflexivity.
    + vm_compute. reflexivity.
Defined.

(** ** The estimated range *)

(** The complexity factor is one of three values. *)
Lemma eave_length_complexity_values (rt : string) (segs : list ProcessedSegment)
    (p fp : Q) :
  let cf := snd (_calculate_eave_length_improved rt segs p fp) in
  cf = 1.0 \/ cf = 1.2 \/ cf = 1.4.
Proof.
  unfold _calculate_eave_length_improved, eave_length_from_segments.
  destruct segs as [|s segs']; [now left|].
  repeat match goal with
  | |- context [if ?b then _ else _] => destruct b
  end; cbn [snd]; tauto.
Qed.

(** The range around a total of at least 1, for a range percentage between
    0 and 1. *)
Lemma estimated_range_of_brackets (total : Z) (cf : Q) :
  (1 <= total)%Z ->
  let range_percentage := 0.08 + (cf - 1.0) * 0.03 in
  0 <= range_percentage <= 1 ->
  let r := estimated_range_of total cf in
  range_min r = Z.max 1 (Qfloor (inject_Z total * (1 - range_percentage))) /\
  range_max r = Qfloor (inject_Z total * (1 + range_percentage)) /\
  range_target r = total /\
  (range_min r <= range_target r <= range_max r)%Z.
Proof.
  intros Ht rp [Hr0 Hr1] r.
  assert (Hq : 1 <= inject_Z total).
  { change 1 with (inject_Z 1). now rewrite <- Zle_Qle. }
  assert (Hlo : 0 <= inject_Z total * (1 - rp)).
  { apply Qmult_le_0_compat; lra. }
  assert (Hlo' : inject_Z total * (1 - rp) <= inject_Z total).
  { rewrite <- (Qmult_1_r (inject_Z total)) at 2. apply Qmult_le_l; lra. }
  assert (Hhi : inject_Z total <= inject_Z total * (1 + rp)).
  { rewrite <- (Qmult_1_r (inject_Z total)) at 1. apply Qmult_le_l; lra. }
  assert (Hhi0 : 0 <= inject_Z total * (1 + rp)) by lra.
  subst r. unfold estimated_range_of. fold rp.
  cbn [range_min range_max range_target].
  rewrite imax_max, !int_nonneg by assumption.
  repeat split.
  - apply Z.max_lub; [exact Ht | now apply floor_le_int].
  - now apply int_le_floor.
Qed.

(** C5, as amended.  When the pipeline returns a total of at least 1 foot,
    the range is computed by the stated formulas and brackets the target. *)
Theorem estimated_range_brackets_target (radians cos sqrt : Q -> Q)
    (bd : BuildingData) (rc : RoofClassification) (e : GutterEstimate) :
  estimate_gutter_feet radians cos sqrt bd rc = inr e ->
  (1 <= total_gutter_ft e)%Z ->
  let total := total_gutter_ft e in
  let range_percentage := 0.08 + (complexity_factor e - 1.0) * 0.03 in
  let r := estimated_range e in
  range_min r = Z.max 1 (Qfloor (inject_Z total * (1 - range_percentage))) /\
  range_max r = Qfloor (inject_Z total * (1 + range_percentage)) /\
  range_target r = total /\
  (range_min r <= range_target r <= range_max r)%Z.
Proof.
  intros He Ht.
  apply estimate_gutter_feet_returns in He as ([p fp] & _ & ->).
  pose proof (estimate_from_perimeter_fields radians cos sqrt
                (roofSegmentStats bd) (wholeRoofStats bd) (center bd)
                (_validate_roof_type (Py.get (rc_roof_type rc) "unknown")
                   (roofSegmentStats bd) (center bd))
                (Py.get (rc_confidence rc) 0.0) p fp) as F.
  cbv zeta in F.
  destruct F as (_ & Ft & _ & _ & _ & _ & Fr & _ & Fc & _ & _).
  cbv zeta. rewrite Ft in Ht |- *. rewrite Fr, Fc.
  apply estimated_range_of_brackets; [exact Ht|].
  match goal with
  | |- context [snd (_calculate_eave_length_improved ?a ?b ?c ?d)] =>
      destruct (eave_length_complexity_values a b c d) as [-> | [-> | ->]]
  end; split; q_le.
Qed.

Lemma estimated_range_brackets_target_witness :
  let r := estimated_range Inputs.small_house_estimate in
  (range_min r <= range_target r <= range_max r)%Z.
Proof.
  apply (estimated_range_brackets_target Sample.radians Sample.cos Sample.sqrt
           Inputs.small_house Inputs.hip_70 Inputs.small_house_estimate).
  - vm_compute. reflexivity.
  - vm_compute. discriminate.
Defined.

(** C5 as stated fails when the total is 0: on an input without any data
    the pipeline returns the range [min = 1, max = 0, target = 0]. *)
Lemma estimated_range_of_zero_total :
  Py.returned estimated_range
    (estimate_gutter_feet Sample.radians Sample.cos Sample.sqrt
       Inputs.no_data Inputs.hip_70)
  = Some (mkEstimatedRange 1 0 0) /\
  ~ (range_min (mkEstimatedRange 1 0 0)
     <= range_target (mkEstimatedRange 1 0 0))%Z.
Proof.
  split; [vm_compute; reflexivity | cbn; lia].
Qed.

(** ** The building perimeter *)

Lemma clamp_perimeter_cases (x : Q) :
  (0 < x -> x < 20 -> clamp_perimeter x = 20) /\
  (200 < x -> clamp_perimeter x = 200) /\
  (20 <= x -> x <= 200 -> clamp_perimeter x = x) /\
  (x <= 0 -> clamp_perimeter x = x).
Proof.
  unfold clamp_perimeter.
  destruct (ltb_spec 0 x); destruct (ltb_spec x 20); destruct (ltb_spec 200 x);
    repeat split; intros; try reflexivity; exfalso; lra.
Qed.

Lemma clamp_perimeter_range (x : Q) :
  0 <= x -> clamp_perimeter x == 0 \/ (20 <= clamp_perimeter x <= 200).
Proof.
  intros Hx. unfold clamp_perimeter.
  destruct (ltb_spec 0 x); [|left; lra].
  destruct (ltb_spec x 20); [right; lra|].
  destruct (ltb_spec 200 x); right; lra.
Qed.

Lemma collect_bounds_returns (segs : list RoofSegment) :
  forallb bbox_complete segs = true ->
  forall lats lons, exists lats' lons',
    collect_bounds segs lats lons = inr (lats', lons').
Proof.
  induction segs as [|seg segs IH]; intros Hc lats lons; cbn.
  - now exists lats, lons.
  - cbn in Hc. apply andb_true_iff in Hc as [Hseg Hrest].
    unfold bbox_complete in Hseg.
    destruct (boundingBox seg) as [b|]; cbn; [|now apply IH].
    destruct (sw b) as [bsw|]; [|now apply IH].
    destruct (ne b) as [bne|]; [|now apply IH].
    apply andb_true_iff in Hseg as [Hsw Hne].
    unfold corner_complete in Hsw, Hne.
    destruct (latitude bsw), (longitude bsw); try discriminate.
    destruct (latitude bne), (longitude bne); try discriminate.
    cbn. now apply IH.
Qed.

Section Perimeter.

Variables radians cos sqrt : Q -> Q.

(** [math.sqrt] returns a non-negative number. *)
Hypothesis sqrt_nonneg : forall x, 0 <= x -> 0 <= sqrt x.

Lemma math_sqrt_nonneg (x r : Q) : math_sqrt sqrt x = inr r -> 0 <= r.
Proof.
  unfold math_sqrt. destruct (ltb_spec x 0) as [H | H]; [discriminate|].
  intros E. injection E as <-. apply sqrt_nonneg. lra.
Qed.

Lemma perimeter_method1_nonneg (wrs : Stats) (ga est : Q) :
  perimeter_method1 sqrt wrs = inr (ga, est) -> 0 <= est.
Proof.
  unfold perimeter_method1.
  destruct (groundAreaMeters2 wrs) as [a|].
  - destruct (Py.is_zero a).
    + intros E. injection E as <- <-. lra.
    + destruct (math_sqrt sqrt a) as [ex | root] eqn:Er; cbn; [discriminate|].
      intros E. injection E as <- <-.
      apply math_sqrt_nonneg in Er. lra.
  - intros E. injection E as <- <-. lra.
Qed.

Lemma perimeter_method2_nonneg (segs : list RoofSegment) (mlon mlat est est' : Q) :
  0 <= est -> perimeter_method2 segs mlon mlat est = inr est' -> 0 <= est'.
Proof.
  intros Hest. unfold perimeter_method2.
  destruct segs as [|s segs']; [intros E; injection E as <-; exact Hest|].
  destruct (collect_bounds (s :: segs') [] []) as [ex | [lats lons]]; cbn;
    [discriminate|].
  destruct lats as [|lat0 lats]; [intros E; injection E as <-; exact Hest|].
  destruct lons as [|lon0 lons]; [intros E; injection E as <-; exact Hest|].
  match goal with
  | |- context [Py.ltb 0 ?b && _] => destruct (ltb_spec 0 b) as [Hb | Hb]
  end; cbn [andb].
  - match goal with
    | |- context [if ?c then _ else _] => destruct c
    end; intros E; injection E as <-; [lra | exact Hest].
  - intros E; injection E as <-; exact Hest.
Qed.

(** The perimeter step returns on every input whose whole-roof area is
    not negative and whose bounding boxes have their coordinates. *)
Lemma building_perimeter_returns (segs : list RoofSegment) (c : LatLng)
    (wrs : Stats) :
  area_valid wrs = true -> forallb bbox_complete segs = true ->
  exists p a,
    _calculate_building_perimeter radians cos sqrt segs c wrs = inr (p, a).
Proof.
  intros Ha Hb. unfold _calculate_building_perimeter.
  cbn [_calculate_meters_per_degree].
  assert (Hs : forall x, 0 <= x -> math_sqrt sqrt x = inr (sqrt x)).
  { intros x Hx. unfold math_sqrt.
    destruct (ltb_spec x 0); [exfalso; lra | reflexivity]. }
  assert (E1 : exists ga est1, perimeter_method1 sqrt wrs = inr (ga, est1)
                               /\ 0 <= ga).
  { unfold perimeter_method1. unfold area_valid in Ha.
    destruct (groundAreaMeters2 wrs) as [g|].
    - apply Qle_bool_iff in Ha. destruct (Py.is_zero g).
      + exists 0, 0. split; [reflexivity | lra].
      + rewrite (Hs g Ha). cbn. now exists g, (4 * sqrt g).
    - exists 0, 0. split; [reflexivity | lra]. }
  destruct E1 as (ga & est1 & -> & Hga). cbn.
  assert (E2 : forall mlon mlat, exists est2,
             perimeter_method2 segs mlon mlat est1 = inr est2).
  { intros mlon mlat. unfold perimeter_method2.
    destruct segs as [|s segs']; [now exists est1|].
    destruct (collect_bounds_returns (s :: segs') Hb [] [])
      as (lats & lons & ->). cbn.
    destruct lats as [|lat0 lats]; [now exists est1|].
    destruct lons as [|lon0 lons]; [now exists est1|].
    match goal with
    | |- context [if ?b then _ else _] => destruct b
    end; eexists; reflexivity. }
  match goal with
  | |- context [perimeter_method2 segs ?a ?b est1] =>
      destruct (E2 a b) as (est2 & ->)
  end. cbn.
  destruct (Py.is_zero est2 && Py.ltb 0 ga).
  + rewrite (Hs ga Hga). cbn. eexists _, _. reflexivity.
  + cbn. eexists _, _. reflexivity.
Qed.

(** What method 1 returns: nothing ([(0, 0)]) when the whole-roof area is
    absent or zero, and otherwise the area with four times its root. *)
Lemma perimeter_method1_cases (wrs : Stats) (ga est1 : Q) :
  perimeter_method1 sqrt wrs = inr (ga, est1) ->
  (Py.get (groundAreaMeters2 wrs) 0 == 0 /\ ga = 0 /\ est1 = 0) \/
  (groundAreaMeters2 wrs = Some ga /\ ~ ga == 0 /\ 0 <= ga
   /\ math_sqrt sqrt ga = inr (sqrt ga) /\ est1 = 4 * sqrt ga).
Proof.
  unfold perimeter_method1.
  destruct (groundAreaMeters2 wrs) as [g|]; cbn [Py.get].
  - destruct (Py.is_zero g) eqn:Ez.
    + intros E. injection E as <- <-. left. apply is_zero_eq in Ez. tauto.
    + unfold math_sqrt. destruct (ltb_spec g 0) as [Hn | Hn]; cbn; [discriminate|].
      intros E. injection E as <- <-. right.
      repeat split; try reflexivity.
      * intros H. apply is_zero_eq in H. congruence.
      * lra.
      * destruct (ltb_spec g 0); [exfalso; tauto | reflexivity].
  - intros E. injection E as <- <-. left. repeat split; reflexivity.
Qed.

(** What method 2 returns: the estimate it was given, or a positive
    perimeter of the bounding boxes. *)
Lemma perimeter_method2_cases (segs : list RoofSegment) (mlon mlat est est' : Q) :
  perimeter_method2 segs mlon mlat est = inr est' -> est' = est \/ 0 < est'.
Proof.
  unfold perimeter_method2.
  destruct segs as [|s segs']; [intros E; injection E as <-; now left|].
  destruct (collect_bounds (s :: segs') [] []) as [ex | [lats lons]]; cbn;
    [discriminate|].
  destruct lats as [|lat0 lats]; [intros E; injection E as <-; now left|].
  destruct lons as [|lon0 lons]; [intros E; injection E as <-; now left|].
  match goal with
  | |- context [Py.ltb 0 ?b && _] => destruct (ltb_spec 0 b) as [Hb | Hb]
  end; cbn [andb].
  - match goal with
    | |- context [if ?c then _ else _] => destruct c
    end; intros E; injection E as <-; [now right | now left].
  - intros E; injection E as <-; now left.
Qed.

(** Segments without both corners contribute no bounds. *)
Lemma collect_bounds_no_corners (segs : list RoofSegment) :
  forallb (fun seg => negb (has_corners seg)) segs = true ->
  forall lats lons, collect_bounds segs lats lons = inr (lats, lons).
Proof.
  induction segs as [|seg segs IH]; intros Hc lats lons; [reflexivity|].
  cbn in Hc. apply andb_true_iff in Hc as [Hseg Hrest].
  cbn [collect_bounds]. unfold has_corners in Hseg.
  destruct (boundingBox seg) as [b|]; cbn [Py.get]; [|now apply IH].
  destruct (sw b) as [bsw|]; [|now apply IH].
  destruct (ne b) as [bne|]; [discriminate | now apply IH].
Qed.

(** C4, as amended.  Let [est1] be the estimate of method 1 (four times
    the root of the whole-roof area, 0 without one) and [est2] the estimate
    after method 2 (the perimeter of the bounding boxes when it is taken,
    [est1] otherwise).  When neither is positive the perimeter returned is
    0; otherwise it is [est2] clamped into [20, 200]: 20 below 20, 200
    above 200, [est2] itself in between.  In particular the result is
    [(0, 0)] when there is no whole-roof area and no segment has both
    corners of a bounding box, and the perimeter is within [20, 200] when
    the whole-roof area is positive with a positive root.  The function
    returns on every input whose whole-roof area is not negative and whose
    bounding boxes have their coordinates. *)
Theorem building_perimeter_range (segs : list RoofSegment) (c : LatLng)
    (wrs : Stats) :
  let mlon := 111320 * cos (radians (center_latitude c)) in
  let mlat := 111132 in
  (forall p a,
     _calculate_building_perimeter radians cos sqrt segs c wrs = inr (p, a) ->
     (p == 0 \/ (20 <= p /\ p <= 200)) /\
     exists est1 est2,
       perimeter_method1 sqrt wrs = inr (a, est1) /\
       perimeter_method2 segs mlon mlat est1 = inr est2 /\
       (~ 0 < est1 -> ~ 0 < est2 -> p == 0) /\
       (0 < est1 \/ 0 < est2 ->
          0 < est2 /\ p = clamp_perimeter est2 /\ 20 <= p <= 200 /\
          (est2 < 20 -> p = 20) /\
          (200 < est2 -> p = 200) /\
          (20 <= est2 -> est2 <= 200 -> p = est2))) /\
  (area_valid wrs = true -> forallb bbox_complete segs = true ->
     exists p a,
       _calculate_building_perimeter radians cos sqrt segs c wrs = inr (p, a)) /\
  (Py.get (groundAreaMeters2 wrs) 0 == 0 ->
   forallb (fun seg => negb (has_corners seg)) segs = true ->
   _calculate_building_perimeter radians cos sqrt segs c wrs = inr (0, 0)) /\
  (forall ga p a,
     groundAreaMeters2 wrs = Some ga -> 0 < ga -> 0 < sqrt ga ->
     _calculate_building_perimeter radians cos sqrt segs c wrs = inr (p, a) ->
     20 <= p <= 200 /\ a = ga).
Proof.
  intros mlon mlat.
  assert (Main : forall p a,
     _calculate_building_perimeter radians cos sqrt segs c wrs = inr (p, a) ->
     (p == 0 \/ (20 <= p /\ p <= 200)) /\
     exists est1 est2,
       perimeter_method1 sqrt wrs = inr (a, est1) /\
       perimeter_method2 segs mlon mlat est1 = inr est2 /\
       (~ 0 < est1 -> ~ 0 < est2 -> p == 0) /\
       (0 < est1 \/ 0 < est2 ->
          0 < est2 /\ p = clamp_perimeter est2 /\ 20 <= p <= 200 /\
          (est2 < 20 -> p = 20) /\
          (200 < est2 -> p = 200) /\
          (20 <= est2 -> est2 <= 200 -> p = est2))).
  { intros p a. unfold _calculate_building_perimeter.
    cbn [_calculate_meters_per_degree]. fold mlon. fold mlat.
    destruct (perimeter_method1 sqrt wrs) as [ex | [ga est1]] eqn:E1; cbn;
      [discriminate|].
    pose proof (perimeter_method1_nonneg _ _ _ E1) as H1.
    destruct (perimeter_method2 segs mlon mlat est1) as [ex | est2] eqn:E2; cbn;
      [discriminate|].
    pose proof (perimeter_method2_nonneg _ _ _ _ _ H1 E2) as H2.
    pose proof (perimeter_method2_cases _ _ _ _ _ E2) as C2.
    destruct (Py.is_zero est2 && Py.ltb 0 ga) eqn:E3.
    - apply andb_true_iff in E3 as [Ez Hga].
      apply is_zero_eq in Ez. apply ltb_lt in Hga.
      assert (He : est2 = est1) by (destruct C2 as [C2 | C2]; [exact C2 | lra]).
      subst est2.
      destruct (perimeter_method1_cases _ _ _ E1)
        as [(_ & -> & _) | (_ & _ & _ & Hs & ->)]; [exfalso; lra|].
      rewrite Hs. cbn. intros E. injection E as <- <-.
      assert (Hc : clamp_perimeter (4 * sqrt ga) = 4 * sqrt ga).
      { apply clamp_perimeter_cases. lra. }
      rewrite Hc. split; [left; exact Ez|].
      exists (4 * sqrt ga), (4 * sqrt ga).
      split; [reflexivity|]. split; [exact E2|].
      split; [intros _ _; exact Ez | intros [H | H]; exfalso; lra].
    - cbn. intros E. injection E as <- <-.
      split; [now apply clamp_perimeter_range|].
      exists est1, est2. split; [reflexivity|]. split; [exact E2|].
      destruct (clamp_perimeter_cases est2) as (K1 & K2 & K3 & K4).
      split.
      + intros _ Hn. rewrite K4 by lra. lra.
      + intros Hpos.
        assert (H0 : 0 < est2).
        { destruct Hpos as [Hp | Hp]; [|exact Hp].
          destruct C2 as [-> | C2]; assumption. }
        split; [exact H0|]. split; [reflexivity|].
        split; [|split; [|split]].
        * unfold clamp_perimeter. apply ltb_lt in H0 as Hb0. rewrite Hb0.
          destruct (ltb_spec est2 20); [split; q_le|].
          destruct (ltb_spec 200 est2); [split; q_le | lra].
        * intros Hlt. now apply K1.
        * exact K2.
        * exact K3. }
  split; [exact Main|].
  split; [apply building_perimeter_returns|].
  split.
  - intros Ha Hc. unfold _calculate_building_perimeter, perimeter_method1.
    cbn [_calculate_meters_per_degree].
    assert (E1 : match groundAreaMeters2 wrs with
                 | Some ground_area =>
                     if Py.is_zero ground_area then Py.ret (0, 0)
                     else root <- math_sqrt sqrt ground_area ;;
                          Py.ret (ground_area, 4 * root)
                 | None => Py.ret (0, 0)
                 end = inr (0, 0)).
    { destruct (groundAreaMeters2 wrs) as [g|]; cbn in Ha; [|reflexivity].
      apply is_zero_eq in Ha. now rewrite Ha. }
    rewrite E1. cbn.
    unfold perimeter_method2.
    destruct segs as [|s segs']; [reflexivity|].
    rewrite (collect_bounds_no_corners (s :: segs') Hc). reflexivity.
  - intros ga p a Hga Hpos Hroot Hp.
    destruct (Main p a Hp) as (_ & est1 & est2 & E1 & _ & _ & Hr).
    destruct (perimeter_method1_cases _ _ _ E1)
      as [(Hz & _) | (Hg & _ & _ & _ & ->)].
    + rewrite Hga in Hz. cbn in Hz. exfalso. lra.
    + rewrite Hga in Hg. injection Hg as <-.
      split; [|reflexivity].
      apply Hr. left. lra.
Qed.

End Perimeter.

Lemma sample_sqrt_nonneg (x : Q) : 0 <= x -> 0 <= Sample.sqrt x.
Proof.
  intros _. unfold Sample.sqrt.
  apply Qle_shift_div_l; [reflexivity|].
  rewrite Qmult_0_l. change 0 with (inject_Z 0). rewrite <- Zle_Qle.
  apply Z.sqrt_nonneg.
Qed.

Lemma building_perimeter_range_witness :
  (let p := perimeter_m Inputs.small_house_estimate in
   p == 0 \/ (20 <= p /\ p <= 200)) /\
  (exists p a,
     _calculate_building_perimeter Sample.radians Sample.cos Sample.sqrt
       Inputs.two_slopes Inputs.a_center (mkStats (Some 100)) = inr (p, a)) /\
  _calculate_building_perimeter Sample.radians Sample.cos Sample.sqrt
    Inputs.two_slopes Inputs.a_center no_stats = inr (0, 0) /\
  (let p := perimeter_m Inputs.small_house_estimate in 20 <= p <= 200).
Proof.
  pose proof (building_perimeter_range Sample.radians Sample.cos Sample.sqrt
                sample_sqrt_nonneg Inputs.two_slopes Inputs.a_center
                (mkStats (Some 100))) as (H1 & H2 & _ & H4).
  pose proof (building_perimeter_range Sample.radians Sample.cos Sample.sqrt
                sample_sqrt_nonneg Inputs.two_slopes Inputs.a_center
                no_stats) as (_ & _ & H3 & _).
  split; [|split; [|split]].
  - apply (H1 (perimeter_m Inputs.small_house_estimate)
              (building_footprint_m2 Inputs.small_house_estimate)).
    vm_compute. reflexivity.
  - apply H2; reflexivity.
  - apply H3; reflexivity.
  - apply (H4 100 (perimeter_m Inputs.small_house_estimate)
              (building_footprint_m2 Inputs.small_house_estimate)).
    + reflexivity.
    + reflexivity.
    + vm_compute. reflexivity.
    + vm_compute. reflexivity.
Defined.

(** C4 as stated fails on an input without segments and without whole-roof
    statistics: the perimeter returned is 0, below 20. *)
Lemma building_perimeter_without_data :
  _calculate_building_perimeter Sample.radians Sample.cos Sample.sqrt
    [] no_latlng no_stats = inr (0, 0) /\
  ~ 20 <= 0.
Proof.
  split; [reflexivity | intros H; apply Qle_bool_iff in H; discriminate H].
Qed.

(** ** Segment processing *)

Section Segments.

Variables radians cos sqrt : Q -> Q.

(** A segment whose derived eave length is positive gets the depth
    [area / eave]. *)
Lemma process_segment_depth segs mlon mlat p d seg ps d' :
  process_segment radians cos sqrt segs mlon mlat p d seg = inr (ps, d') ->
  0 < eave_m ps ->
  depth_m ps = area_m2 ps / eave_m ps.
Proof.
  unfold process_segment.
  destruct (eave_from_bbox _ _ _ _ _ _) as [ex | e1]; cbn; [discriminate|].
  match goal with
  | |- context [Py.bind ?m _] => destruct m as [ex | e2]
  end; cbn; [discriminate|].
  match goal with
  | |- context [Py.bind ?m _] => destruct m as [ex | e3]
  end; cbn; [discriminate|].
  destruct (ltb_spec 0 e3) as [He | He].
  - unfold Py.div. destruct (Py.is_zero e3); cbn; [discriminate|].
    intros E _. injection E as <- <-. reflexivity.
  - cbn. destruct d as [dv|]; [|discriminate].
    intros E Hpos. injection E as <- <-. cbn in Hpos. tauto.
Qed.

(** A segment whose processing raises is skipped, and the rest of the
    batch is processed as if it were not there. *)
Lemma process_loop_skips segs mlon mlat p d seg rest ex :
  process_segment radians cos sqrt segs mlon mlat p d seg = inl ex ->
  process_loop radians cos sqrt segs mlon mlat p d (seg :: rest)
  = process_loop radians cos sqrt segs mlon mlat p d rest.
Proof. intros E. cbn. now rewrite E. Qed.

(** C8, at the inputs where the code departs from it.  A segment with
    neither bounding box nor ground area, alone in the batch, is dropped
    instead of being given depth 0. *)
Lemma lone_empty_segment_dropped (c : LatLng) (p : Q) :
  _process_roof_segments_improved radians cos sqrt [Inputs.segment 0 90 0] c p
  = [].
Proof.
  unfold _process_roof_segments_improved. cbn.
  unfold process_segment. cbn.
  destruct (Py.ltb 0 p); reflexivity.
Qed.

End Segments.

(** C8: the code at its failing input.  After a segment of eave length
    7.071 and depth 50000/7071, the segment with neither bounding box nor
    ground area gets eave length 0 and the depth of the segment before it,
    not 0; alone in a batch it is dropped. *)
Theorem zero_eave_depth_is_stale :
  map (fun s => (eave_m s, depth_m s))
      (_process_roof_segments_improved Sample.radians Sample.cos Sample.sqrt
         Inputs.with_empty_segment Inputs.a_center 40)
  = [(7.071, 50000 # 7071); (0 # 5000, 50000 # 7071)] /\
  ~ (50000 # 7071) == 0 /\
  _process_roof_segments_improved Sample.radians Sample.cos Sample.sqrt
    [Inputs.segment 0 90 0] Inputs.a_center 40 = [].
Proof.
  split; [vm_compute; reflexivity|].
  split; [intros H; discriminate H|].
  apply lone_empty_segment_dropped.
Qed.

(** ** The pipeline without data *)

Lemma round_digits_zero (x : Q) (n : nat) : x == 0 -> Py.round_digits x n == 0.
Proof.
  intros Hx. unfold Py.round_digits, Py.round_digits_key, Py.round_half_even.
  assert (H0 : x * Py.pow10 n == 0) by (rewrite Hx; ring).
  rewrite (Qfloor_comp _ _ H0).
  assert (Hc : Qcompare (x * Py.pow10 n - inject_Z (Qfloor 0)) (1 # 2) = Lt).
  { rewrite H0. reflexivity. }
  rewrite Hc. change (inject_Z (Qfloor 0)) with 0.
  unfold Qdiv. apply Qmult_0_l.
Qed.

(** C9, as amended.  Without segments and without whole-roof ground area
    the pipeline returns, with perimeter 0, eave length 0, a total of 0,
    a range whose target and maximum are 0, and the warning of a small
    roof with eave length 0. *)
Theorem estimate_without_data (radians cos sqrt : Q -> Q)
    (rc : RoofClassification) (c : LatLng) (wrs : Stats) :
  Py.get (groundAreaMeters2 wrs) 0 == 0 ->
  exists e,
    estimate_gutter_feet radians cos sqrt (mkBuildingData [] wrs c) rc = inr e /\
    perimeter_m e = 0 /\
    eave_length_ft e == 0 /\
    total_gutter_ft e = 0%Z /\
    range_target (estimated_range e) = 0%Z /\
    range_max (estimated_range e) = 0%Z /\
    In (SmallRoof 0.0) (warnings e).
Proof.
  intros Ha.
  assert (Hp : _calculate_building_perimeter radians cos sqrt [] c wrs
               = inr (0, 0)).
  { unfold _calculate_building_perimeter, perimeter_method1.
    cbn [_calculate_meters_per_degree].
    destruct (groundAreaMeters2 wrs) as [g|]; cbn in Ha; [|reflexivity].
    apply is_zero_eq in Ha. rewrite Ha. reflexivity. }
  eexists. split.
  { apply estimate_gutter_feet_returns. eexists. split; [exact Hp | reflexivity]. }
  cbn [roofSegmentStats wholeRoofStats center].
  set (vt := _validate_roof_type _ _ _).
  set (conf := Py.get _ _).
  pose proof (estimate_from_perimeter_fields radians cos sqrt [] wrs c vt conf
                0 0) as F.
  cbv zeta in F.
  destruct F as (Fe & Ft & _ & _ & _ & Fw & Fr & _ & _ & Fp & _).
  assert (Hps : _process_roof_segments_improved radians cos sqrt [] c 0 = [])
    by reflexivity.
  rewrite Hps in *.
  change (_calculate_eave_length_improved vt [] 0 0) with (0.0, 1.0) in *.
  cbn [fst snd List.length] in *.
  set (w := _calculate_dynamic_waste_factor vt 1.0 0) in *.
  assert (Hg : gutter_totals 0.0 0 w = (0%Z, 0.0 * 3.28084)).
  { unfold gutter_totals. cbn [Py.ltb Qle_bool negb].
    change (Py.ltb 0 0) with false. cbv iota.
    f_equal; unfold Py.ceil; rewrite (Qceiling_comp _ 0); solve [reflexivity | lra]. }
  rewrite Hg in *. cbn [fst snd] in *.
  split; [exact Fp|].
  split; [rewrite Fe; apply round_digits_zero; lra|].
  split; [exact Ft|].
  rewrite Fr, Fw.
  split; [reflexivity|]. split; [reflexivity|].
  unfold _generate_warnings_improved.
  change (Py.ltb 0 0) with false. change (Py.ltb 100 0.0) with false.
  change (Py.ltb 0.0 10) with true. cbv iota.
  apply in_or_app. right. now left.
Qed.

Lemma estimate_without_data_witness :
  exists e,
    estimate_gutter_feet Sample.radians Sample.cos Sample.sqrt
      Inputs.no_data Inputs.hip_70 = inr e /\
    perimeter_m e = 0 /\
    eave_length_ft e == 0 /\
    total_gutter_ft e = 0%Z /\
    range_target (estimated_range e) = 0%Z /\
    range_max (estimated_range e) = 0%Z /\
    In (SmallRoof 0.0) (warnings e).
Proof.
  apply (estimate_without_data Sample.radians Sample.cos Sample.sqrt
           Inputs.hip_70 no_latlng no_stats).
  reflexivity.
Defined.

(** C9 as stated fails on the range: the minimum returned is 1, not 0. *)
Lemma estimate_without_data_range :
  Py.returned estimated_range
    (estimate_gutter_feet Sample.radians Sample.cos Sample.sqrt
       Inputs.no_data Inputs.hip_70)
  = Some (mkEstimatedRange 1 0 0) /\
  mkEstimatedRange 1 0 0 <> mkEstimatedRange 0 0 0.
Proof.
  split; [vm_compute; reflexivity | discriminate].
Qed.

(** ** The reported confidence *)

(** C10.  The estimate returned carries the confidence read from the
    classification (0.0 when absent) and the validated roof type; the
    pipeline returns on every input whose whole-roof area is not negative
    and whose bounding boxes have their coordinates. *)
Theorem confidence_unchanged (radians cos sqrt : Q -> Q) (bd : BuildingData)
    (rc : RoofClassification) :
  (forall e,
     estimate_gutter_feet radians cos sqrt bd rc = inr e ->
     confidence e = Py.get (rc_confidence rc) 0.0 /\
     roof_type e = _validate_roof_type (Py.get (rc_roof_type rc) "unknown")
                     (roofSegmentStats bd) (center bd)) /\
  (area_valid (wholeRoofStats bd) = true ->
   forallb bbox_complete (roofSegmentStats bd) = true ->
   exists e, estimate_gutter_feet radians cos sqrt bd rc = inr e).
Proof.
  split.
  - intros e He.
    apply estimate_gutter_feet_returns in He as ([p fp] & _ & ->).
    pose proof (estimate_from_perimeter_fields radians cos sqrt
                  (roofSegmentStats bd) (wholeRoofStats bd) (center bd)
                  (_validate_roof_type (Py.get (rc_roof_type rc) "unknown")
                     (roofSegmentStats bd) (center bd))
                  (Py.get (rc_confidence rc) 0.0) p fp) as F.
    cbv zeta in F.
    destruct F as (_ & _ & _ & Frt & Fc & _). now split.
  - intros Ha Hb.
    destruct (building_perimeter_returns radians cos sqrt (roofSegmentStats bd)
                (center bd) (wholeRoofStats bd) Ha Hb) as (p & a & Hp).
    eexists. apply estimate_gutter_feet_returns.
    exists (p, a). split; [exact Hp | reflexivity].
Qed.

(** On a house of two slopes classified as hip with confidence 0.7, the
    estimate reports a gable roof with confidence 0.7. *)
Lemma confidence_unchanged_witness :
  (confidence Inputs.small_house_estimate = 0.7 /\
   roof_type Inputs.small_house_estimate = "gable") /\
  (exists e,
     estimate_gutter_feet Sample.radians Sample.cos Sample.sqrt
       Inputs.small_house Inputs.hip_70 = inr e).
Proof.
  split.
  - apply (proj1 (confidence_unchanged Sample.radians Sample.cos Sample.sqrt
                    Inputs.small_house Inputs.hip_70)
             Inputs.small_house_estimate).
    vm_compute. reflexivity.
  - apply (proj2 (confidence_unchanged Sample.radians Sample.cos Sample.sqrt
                    Inputs.small_house Inputs.hip_70)); reflexivity.
Defined.

(** * Further properties of the code *)

(** ** [Py.max], [Py.min] and rounding *)

Lemma py_max_cases (a b : Q) :
  (a < b /\ Py.max a b = b) \/ (b <= a /\ Py.max a b = a).
Proof.
  unfold Py.max. destruct (ltb_spec a b) as [H | H]; [left | right]; split;
    try reflexivity; lra.
Qed.

Lemma py_min_cases (a b : Q) :
  (b < a /\ Py.min a b = b) \/ (a <= b /\ Py.min a b = a).
Proof.
  unfold Py.min. destruct (ltb_spec b a) as [H | H]; [left | right]; split;
    try reflexivity; lra.
Qed.

(** The clamp [min(hi, max(lo, x))] does not decrease when [x] grows. *)
Lemma clamp_monotone (lo hi x y : Q) :
  x <= y -> Py.min hi (Py.max lo x) <= Py.min hi (Py.max lo y).
Proof.
  intros Hxy.
  destruct (py_max_cases lo x) as [[? ->] | [? ->]];
    destruct (py_max_cases lo y) as [[? ->] | [? ->]];
    repeat match goal with
    | |- context [Py.min ?a ?b] =>
        destruct (py_min_cases a b) as [[? ->] | [? ->]]
    end; lra.
Qed.

Lemma round_half_even_bounds (x : Q) :
  (Qfloor x <= Py.round_half_even x <= Qfloor x + 1)%Z.
Proof.
  unfold Py.round_half_even.
  destruct (Qcompare (x - inject_Z (Qfloor x)) (1 # 2));
    [destruct (Z.even (Qfloor x))| |]; lia.
Qed.

(** Rounding to the nearest integer is monotone. *)
Lemma round_half_even_monotone (x y : Q) :
  x <= y -> (Py.round_half_even x <= Py.round_half_even y)%Z.
Proof.
  intros Hxy.
  pose proof (Qfloor_resp_le _ _ Hxy) as Hf.
  destruct (Z.eq_dec (Qfloor x) (Qfloor y)) as [E | NE].
  - unfold Py.round_half_even. rewrite E.
    destruct (Qcompare_spec (x - inject_Z (Qfloor y)) (1 # 2)) as [H1 | H1 | H1];
      destruct (Qcompare_spec (y - inject_Z (Qfloor y)) (1 # 2)) as [H2 | H2 | H2];
      try (destruct (Z.even (Qfloor y))); try lia; exfalso; lra.
  - pose proof (round_half_even_bounds x). pose proof (round_half_even_bounds y).
    lia.
Qed.

Lemma pow10_pos (n : nat) : 0 < Py.pow10 n.
Proof.
  unfold Py.pow10. change 0 with (inject_Z 0). rewrite <- Zlt_Qlt.
  apply Z.pow_pos_nonneg; lia.
Qed.

(** [round(x, n)] is monotone in [x]. *)
Lemma round_digits_monotone (x y : Q) (n : nat) :
  x <= y -> Py.round_digits x n <= Py.round_digits y n.
Proof.
  intros Hxy. unfold Py.round_digits, Py.round_digits_key.
  pose proof (pow10_pos n) as Hp.
  apply Qmult_le_compat_r.
  - rewrite <- Zle_Qle. apply round_half_even_monotone.
    apply Qmult_le_compat_r; lra.
  - apply Qlt_le_weak. now apply Qinv_lt_0_compat.
Qed.

(** ** The eave length never exceeds 1.2 times a positive perimeter *)

Lemma eave_length_cap (rt : string) (segs : list ProcessedSegment) (p fp : Q) :
  0 < p -> fst (_calculate_eave_length_improved rt segs p fp) <= p * 1.2.
Proof.
  intros Hp. apply ltb_lt in Hp as Hpb.
  assert (Hseg : fst (eave_length_from_segments segs p) <= p * 1.2).
  { unfold eave_length_from_segments. rewrite Hpb. cbn [fst].
    destruct (ltb_spec (p * 1.2) (segment_eave_sum segs)); lra. }
  unfold _calculate_eave_length_improved.
  destruct segs as [|s segs']; [cbn; lra|].
  rewrite Hpb.
  destruct (rt =? "hip"); [cbn; lra|].
  destruct (rt =? "gable"); [cbn; lra | exact Hseg].
Qed.

(** Whatever the roof type and the segments, with a positive perimeter the
    eave length returned is at most 1.2 times the perimeter. *)
Theorem eave_length_within_cap (rt : string) (segs : list ProcessedSegment)
    (p fp : Q) :
  0 < p -> fst (_calculate_eave_length_improved rt segs p fp) <= p * 1.2.
Proof. apply eave_length_cap. Qed.

Lemma eave_length_within_cap_witness :
  fst (_calculate_eave_length_improved "complex" Inputs.four_processed 20 100)
  <= 20 * 1.2.
Proof.
  apply (eave_length_within_cap "complex" Inputs.four_processed 20 100).
  reflexivity.
Defined.

(** ** The waste factor *)

(** The waste factor stays within [0.01, 0.06] and does not decrease when
    segments are added or the complexity factor grows. *)
Theorem waste_factor_monotone (rt : string) (cf cf' : Q) (n n' : nat) :
  (n <= n')%nat -> cf <= cf' ->
  0.01 <= _calculate_dynamic_waste_factor rt cf n /\
  _calculate_dynamic_waste_factor rt cf n
    <= _calculate_dynamic_waste_factor rt cf' n' /\
  _calculate_dynamic_waste_factor rt cf' n' <= 0.06.
Proof.
  intros Hn Hcf.
  split; [apply dynamic_waste_factor_bounds|].
  split; [|apply dynamic_waste_factor_bounds].
  unfold _calculate_dynamic_waste_factor.
  apply clamp_monotone.
  assert (Hz : inject_Z (Z.of_nat n - 2) <= inject_Z (Z.of_nat n' - 2)).
  { rewrite <- Zle_Qle. lia. }
  generalize dependent (inject_Z (Z.of_nat n - 2)).
  generalize (inject_Z (Z.of_nat n' - 2)).
  intros a' a Hz.
  generalize (dict_get type_waste rt 0.02).
  generalize (if Py.str_in rt ["hip"; "mansard"; "complex"] then 0.005 else 0).
  intros c b.
  destruct (py_max_cases 0 (a * 0.003)) as [[? ->] | [? ->]];
    destruct (py_max_cases 0 (a' * 0.003)) as [[? ->] | [? ->]]; lra.
Qed.

Lemma waste_factor_monotone_witness :
  0.01 <= _calculate_dynamic_waste_factor "hip" 1.2 4 /\
  _calculate_dynamic_waste_factor "hip" 1.2 4
    <= _calculate_dynamic_waste_factor "hip" 1.4 9 /\
  _calculate_dynamic_waste_factor "hip" 1.4 9 <= 0.06.
Proof.
  apply (waste_factor_monotone "hip" 1.2 1.4 4 9).
  - repeat constructor.
  - q_le.
Defined.


(** ** The final guard *)

(** With a perimeter of at least 20 m, an eave length within 1.2 times the
    perimeter and a waste factor of at most 0.06, the total is the ceiling
    of the eave length in feet with waste: the final guard does not fire. *)
Lemma gutter_totals_guard_idle (eave p w : Q) :
  20 <= p -> eave <= p * 1.2 -> 0 <= w <= 0.06 ->
  gutter_totals eave p w
  = (Qceiling (eave * 3.28084 * (1 + w)), eave * 3.28084).
Proof.
  intros Hp He [Hw0 Hw1]. unfold gutter_totals.
  assert (Hpb : Py.ltb 0 p = true) by (apply ltb_lt; lra).
  rewrite Hpb. unfold Py.ceil.
  set (x := eave * 3.28084 * (1 + w)).
  assert (Hx : x <= p * 1.2 * 3.28084 * 1.06).
  { subst x.
    assert (0 <= (p * 1.2 - eave) * (1 + w)) by (apply Qmult_le_0_compat; lra).
    assert (0 <= p * (0.06 - w)) by (apply Qmult_le_0_compat; lra).
    lra. }
  pose proof (Qceiling_lt x) as Hc.
  replace (Qceiling x - 1)%Z with (Qceiling x + -1)%Z in Hc by lia.
  rewrite inject_Z_plus in Hc. change (inject_Z (-1)) with (-1 # 1) in Hc.
  destruct (ltb_spec (p * 3.28084 * 1.3) (inject_Z (Qceiling x))) as [Hg | Hg];
    [exfalso; lra | reflexivity].
Qed.

(** The perimeter returned is the clamp of some estimate. *)
Lemma building_perimeter_is_clamped (radians cos sqrt : Q -> Q)
    (segs : list RoofSegment) (c : LatLng) (wrs : Stats) (p a : Q) :
  _calculate_building_perimeter radians cos sqrt segs c wrs = inr (p, a) ->
  exists estimate, p = clamp_perimeter estimate.
Proof.
  unfold _calculate_building_perimeter. cbn [_calculate_meters_per_degree].
  destruct (perimeter_method1 sqrt wrs) as [ex | [ga est1]]; cbn; [discriminate|].
  match goal with
  | |- context [perimeter_method2 ?s ?x ?y ?e] =>
      destruct (perimeter_method2 s x y e) as [ex | est2]
  end; cbn; [discriminate|].
  match goal with
  | |- context [Py.bind ?m _] => destruct m as [ex | est3]
  end; cbn; [discriminate|].
  intros E. injection E as <- <-. now exists est3.
Qed.

Lemma clamp_perimeter_positive (x : Q) :
  0 < clamp_perimeter x -> 20 <= clamp_perimeter x <= 200.
Proof.
  unfold clamp_perimeter.
  destruct (ltb_spec 0 x); [|tauto].
  destruct (ltb_spec x 20); [intros _; split; q_le|].
  destruct (ltb_spec 200 x); [intros _; split; q_le|].
  intros _. lra.
Qed.

(** In the pipeline the final guard never fires: the total returned is
    always the ceiling of the eave length in feet with the waste factor,
    and the eave length in feet returned is the eave length in meters
    converted and rounded to two decimals. *)
Theorem final_guard_never_fires (radians cos sqrt : Q -> Q) (bd : BuildingData)
    (rc : RoofClassification) (e : GutterEstimate) :
  estimate_gutter_feet radians cos sqrt bd rc = inr e ->
  let processed :=
    _process_roof_segments_improved radians cos sqrt (roofSegmentStats bd)
      (center bd) (perimeter_m e) in
  let total_eave_m :=
    fst (_calculate_eave_length_improved (roof_type e) processed (perimeter_m e)
           (building_footprint_m2 e)) in
  total_gutter_ft e = Qceiling (total_eave_m * 3.28084 * (1 + waste_factor e)) /\
  eave_length_ft e = Py.round_digits (total_eave_m * 3.28084) 2.
Proof.
  intros He.
  apply estimate_gutter_feet_returns in He as ([p fp] & Hp & ->).
  pose proof (estimate_from_perimeter_fields radians cos sqrt
                (roofSegmentStats bd) (wholeRoofStats bd) (center bd)
                (_validate_roof_type (Py.get (rc_roof_type rc) "unknown")
                   (roofSegmentStats bd) (center bd))
                (Py.get (rc_confidence rc) 0.0) p fp) as F.
  cbv zeta in F.
  destruct F as (Fe & Ft & Fw & Frt & _ & _ & _ & _ & _ & Fp & Ffp).
  cbv zeta. rewrite Fe, Ft, Fw, Frt, Fp, Ffp.
  set (vt := _validate_roof_type _ _ _).
  set (ps := _process_roof_segments_improved _ _ _ _ _ _).
  set (ec := _calculate_eave_length_improved vt ps p fp).
  set (w := _calculate_dynamic_waste_factor vt (snd ec) (List.length ps)).
  assert (Hg : gutter_totals (fst ec) p w
               = (Qceiling (fst ec * 3.28084 * (1 + w)), fst ec * 3.28084)).
  { destruct (ltb_spec 0 p) as [Hpos | Hneg].
    - apply building_perimeter_is_clamped in Hp as [est ->].
      apply gutter_totals_guard_idle.
      + now apply clamp_perimeter_positive.
      + now apply eave_length_cap.
      + pose proof (dynamic_waste_factor_bounds vt (snd ec) (List.length ps))
          as [Hlo Hhi].
        split; [|exact Hhi]. apply Qle_trans with 0.01; [q_le | exact Hlo].
    - unfold gutter_totals.
      destruct (ltb_spec 0 p); [tauto | reflexivity]. }
  rewrite Hg. now split.
Qed.

Lemma final_guard_never_fires_witness :
  let e := Inputs.small_house_estimate in
  let processed :=
    _process_roof_segments_improved Sample.radians Sample.cos Sample.sqrt
      (roofSegmentStats Inputs.small_house) (center Inputs.small_house)
      (perimeter_m e) in
  let total_eave_m :=
    fst (_calculate_eave_length_improved (roof_type e) processed (perimeter_m e)
           (building_footprint_m2 e)) in
  total_gutter_ft e = Qceiling (total_eave_m * 3.28084 * (1 + waste_factor e)) /\
  eave_length_ft e = Py.round_digits (total_eave_m * 3.28084) 2.
Proof.
  apply (final_guard_never_fires Sample.radians Sample.cos Sample.sqrt
           Inputs.small_house Inputs.hip_70 Inputs.small_house_estimate).
  vm_compute. reflexivity.
Defined.

(** ** Invariants of the estimate returned *)

Lemma downspouts_lower_bounds (rt : string) (eave : Q)
    (segs : list ProcessedSegment) :
  let d := _estimate_downspouts_improved rt eave segs in
  (1 <= d)%Z /\
  (rt <> "flat" -> (2 <= d)%Z) /\
  (Py.str_in rt ["hip"; "mansard"; "complex"] = true -> (4 <= d)%Z).
Proof.
  unfold _estimate_downspouts_improved. rewrite !imax_max.
  rewrite !str_in_cons. cbn [Py.str_in existsb].
  repeat match goal with
  | |- context [String.eqb ?a ?b] =>
      is_var a; destruct (String.eqb_spec a b) as [-> | ?]; cbn
  end; repeat split; intros; try lia; try discriminate; congruence.
Qed.

(** Every estimate the pipeline returns has a waste factor within
    [0.01, 0.06], a complexity factor among 1.0, 1.2 and 1.4, at least one
    downspout (at least two unless the roof is flat, at least four for hip,
    mansard and complex roofs), and a range whose target is the total. *)
Theorem estimate_invariants (radians cos sqrt : Q -> Q) (bd : BuildingData)
    (rc : RoofClassification) (e : GutterEstimate) :
  estimate_gutter_feet radians cos sqrt bd rc = inr e ->
  0.01 <= waste_factor e <= 0.06 /\
  (complexity_factor e = 1.0 \/ complexity_factor e = 1.2
   \/ complexity_factor e = 1.4) /\
  (1 <= downspouts_estimate e)%Z /\
  (roof_type e <> "flat" -> (2 <= downspouts_estimate e)%Z) /\
  (Py.str_in (roof_type e) ["hip"; "mansard"; "complex"] = true ->
     (4 <= downspouts_estimate e)%Z) /\
  range_target (estimated_range e) = total_gutter_ft e.
Proof.
  intros He.
  apply estimate_gutter_feet_returns in He as ([p fp] & _ & ->).
  pose proof (estimate_from_perimeter_fields radians cos sqrt
                (roofSegmentStats bd) (wholeRoofStats bd) (center bd)
                (_validate_roof_type (Py.get (rc_roof_type rc) "unknown")
                   (roofSegmentStats bd) (center bd))
                (Py.get (rc_confidence rc) 0.0) p fp) as F.
  cbv zeta in F.
  destruct F as (_ & Ft & Fw & Frt & _ & _ & Fr & Fd & Fc & _ & _).
  rewrite Ft, Fw, Frt, Fr, Fd, Fc.
  split; [apply dynamic_waste_factor_bounds|].
  split; [apply eave_length_complexity_values|].
  match goal with
  | |- context [_estimate_downspouts_improved ?a ?b ?c] =>
      destruct (downspouts_lower_bounds a b c) as (D1 & D2 & D4)
  end.
  repeat split; assumption.
Qed.

Lemma estimate_invariants_witness :
  let e := Inputs.small_house_estimate in
  0.01 <= waste_factor e <= 0.06 /\
  (complexity_factor e = 1.0 \/ complexity_factor e = 1.2
   \/ complexity_factor e = 1.4) /\
  (1 <= downspouts_estimate e)%Z /\
  (roof_type e <> "flat" -> (2 <= downspouts_estimate e)%Z) /\
  (Py.str_in (roof_type e) ["hip"; "mansard"; "complex"] = true ->
     (4 <= downspouts_estimate e)%Z) /\
  range_target (estimated_range e) = total_gutter_ft e.
Proof.
  apply (estimate_invariants Sample.radians Sample.cos Sample.sqrt
           Inputs.small_house Inputs.hip_70 Inputs.small_house_estimate).
  vm_compute. reflexivity.
Defined.

(** ** Warnings *)

(** The warnings come in the order of their tests, each at most once; the
    two ratio warnings exclude each other, as do the large-roof and the
    small-roof warning, so there are at most four; and without a positive
    perimeter no ratio warning is given. *)
Theorem warnings_structure (rt : string) (total : Z) (eave : Q)
    (segs : list ProcessedSegment) (wrs : Stats) (p : Q) :
  let ws := _generate_warnings_improved rt total eave segs wrs p in
  let ranks := map warning_rank ws in
  Sorted lt ranks /\
  (List.length ws <= 4)%nat /\
  ~ (In 0%nat ranks /\ In 1%nat ranks) /\
  ~ (In 4%nat ranks /\ In 5%nat ranks) /\
  (~ 0 < p -> forallb (fun w => negb (is_ratio_warning w)) ws = true).
Proof.
  unfold _generate_warnings_improved.
  destruct (ltb_spec 0 p) as [Hp | Hp];
    repeat match goal with
    | |- context [if ?b then _ else _] => destruct b
    end; cbn;
    (split; [repeat constructor|]);
    (split; [lia|]);
    (split; [intros [H1 H2]; intuition discriminate|]);
    (split; [intros [H1 H2]; intuition discriminate|]);
    intros H; try reflexivity; tauto.
Qed.

Lemma warnings_structure_witness :
  forallb (fun w => negb (is_ratio_warning w))
    (_generate_warnings_improved "hip" 0 0 [] no_stats 0) = true.
Proof.
  apply (warnings_structure "hip" 0 0 [] no_stats 0).
  intros H. discriminate H.
Defined.

(** A hip or gable roof with segments and a positive perimeter never gets
    a ratio warning: its eave length is half the perimeter. *)
Theorem hip_gable_no_ratio_warning (rt : string) (segs : list ProcessedSegment)
    (p fp : Q) (total : Z) (wrs : Stats) :
  segs <> [] -> 0 < p -> rt = "hip" \/ rt = "gable" ->
  let eave := fst (_calculate_eave_length_improved rt segs p fp) in
  forallb (fun w => negb (is_ratio_warning w))
    (_generate_warnings_improved rt total eave segs wrs p) = true.
Proof.
  intros Hne Hp Hrt.
  assert (He : fst (_calculate_eave_length_improved rt segs p fp) = p * 0.5).
  { unfold _calculate_eave_length_improved.
    destruct segs as [|s segs']; [congruence|].
    apply ltb_lt in Hp. rewrite Hp.
    destruct Hrt as [-> | ->]; reflexivity. }
  cbv zeta. rewrite He.
  assert (Hr : p * 0.5 / p == 0.5) by (field; lra).
  assert (H1 : Py.ltb 1.0 (p * 0.5 / p) = false).
  { apply ltb_ge. rewrite Hr. q_le. }
  assert (H2 : Py.ltb (p * 0.5 / p) 0.3 = false).
  { apply ltb_ge. rewrite Hr. q_le. }
  unfold _generate_warnings_improved.
  rewrite H1, H2.
  repeat match goal with
  | |- context [if ?b then _ else _] => destruct b
  end; reflexivity.
Qed.

Lemma hip_gable_no_ratio_warning_witness :
  forallb (fun w => negb (is_ratio_warning w))
    (_generate_warnings_improved "hip" 87
       (fst (_calculate_eave_length_improved "hip" Inputs.four_processed 50 150))
       Inputs.four_processed no_stats 50) = true.
Proof.
  apply (hip_gable_no_ratio_warning "hip" Inputs.four_processed 50 150 87
           no_stats).
  - discriminate.
  - reflexivity.
  - now left.
Defined.

(** ** Roof type validation, again *)

(** Validation returns the external guess or one of four forced types, and
    validating its own result changes nothing. *)
Theorem validate_roof_type_idempotent (rt : string) (segs : list RoofSegment)
    (c : LatLng) :
  let r := _validate_roof_type rt segs c in
  In r [rt; "shed"; "gable"; "hip"; "complex"] /\
  _validate_roof_type r segs c = r.
Proof.
  unfold _validate_roof_type.
  destruct segs as [|s segs']; [cbn; tauto|].
  destruct (latlng_truthy c); [|cbn; tauto].
  destruct (Py.ltb 0 (total_area (s :: segs'))); [|cbn; tauto].
  destruct (List.length (s :: segs') =? 1)%nat.
  { destruct (String.eqb_spec rt "shed") as [-> | ?]; [cbn; tauto|].
    destruct (String.eqb_spec rt "flat") as [-> | ?]; cbn; tauto. }
  destruct (List.length (s :: segs') =? 2)%nat.
  { destruct (String.eqb_spec rt "gable") as [-> | ?]; cbn; tauto. }
  destruct ((4 <=? List.length (s :: segs'))%nat
            && (3 <=? unique_azimuths (s :: segs'))%nat).
  { rewrite !str_in_cons. cbn [Py.str_in existsb].
    destruct (String.eqb_spec rt "hip") as [-> | ?]; [cbn; tauto|].
    destruct (String.eqb_spec rt "mansard") as [-> | ?]; [cbn; tauto|].
    destruct (String.eqb_spec rt "complex") as [-> | ?]; cbn; tauto. }
  destruct (4 <? List.length (s :: segs'))%nat.
  { destruct (String.eqb_spec rt "complex") as [-> | ?]; cbn; tauto. }
  cbn; tauto.
Qed.

(** ** Segment processing, again *)

Section SegmentBatch.

Variables radians cos sqrt : Q -> Q.

(** A processed segment carries the ground area, pitch and azimuth of the
    raw segment it comes from. *)
Lemma process_segment_fields segs mlon mlat p d seg ps d' :
  process_segment radians cos sqrt segs mlon mlat p d seg = inr (ps, d') ->
  area_m2 ps = seg_ground_area seg /\
  pitch_degrees ps = Py.get (pitchDegrees seg) 0 /\
  pitch ps = Py.get (pitchDegrees seg) 0 /\
  azimuth ps = Py.get (azimuthDegrees seg) 0 /\
  d' = Some (depth_m ps).
Proof.
  unfold process_segment.
  destruct (eave_from_bbox _ _ _ _ _ _) as [ex | e1]; cbn; [discriminate|].
  match goal with
  | |- context [Py.bind ?m _] => destruct m as [ex | e2]
  end; cbn; [discriminate|].
  match goal with
  | |- context [Py.bind ?m _] => destruct m as [ex | e3]
  end; cbn; [discriminate|].
  match goal with
  | |- context [Py.bind ?m _] => destruct m as [ex | [dv|]]
  end; cbn; try discriminate.
  intros E. injection E as <- <-. cbn. tauto.
Qed.

Lemma process_loop_from segs mlon mlat p d todo :
  let out := process_loop radians cos sqrt segs mlon mlat p d todo in
  (List.length out <= List.length todo)%nat /\
  (forall ps, In ps out ->
     exists seg, In seg todo /\ area_m2 ps = seg_ground_area seg
                 /\ pitch_degrees ps = Py.get (pitchDegrees seg) 0
                 /\ azimuth ps = Py.get (azimuthDegrees seg) 0).
Proof.
  revert d. induction todo as [|seg rest IH]; intros d; cbn.
  - split; [lia | intros ps []].
  - destruct (process_segment radians cos sqrt segs mlon mlat p d seg)
      as [ex | [ps0 d0]] eqn:E.
    + destruct (IH d) as [IHl IHi]. split; [lia|].
      intros ps Hin. destruct (IHi ps Hin) as (sg & Hsg & Hf).
      exists sg. split; [now right | exact Hf].
    + destruct (IH d0) as [IHl IHi]. cbn. split; [lia|].
      intros ps [<- | Hin].
      * exists seg. split; [now left|].
        apply process_segment_fields in E. tauto.
      * destruct (IHi ps Hin) as (sg & Hsg & Hf).
        exists sg. split; [now right | exact Hf].
Qed.

(** Processing never yields more segments than it is given, and every
    processed segment carries the ground area, pitch and azimuth of one of
    the raw segments. *)
Theorem processed_segments_come_from_input (segs : list RoofSegment)
    (c : LatLng) (p : Q) :
  let out := _process_roof_segments_improved radians cos sqrt segs c p in
  (List.length out <= List.length segs)%nat /\
  (forall ps, In ps out ->
     exists seg, In seg segs /\ area_m2 ps = seg_ground_area seg
                 /\ pitch_degrees ps = Py.get (pitchDegrees seg) 0
                 /\ azimuth ps = Py.get (azimuthDegrees seg) 0).
Proof.
  unfold _process_roof_segments_improved. cbn [_calculate_meters_per_degree].
  apply process_loop_from.
Qed.

(** Once [depth_m] is bound, a segment without bounding box, whose pitch is
    not positive and whose ground area is not negative, is kept. *)
Lemma flat_segment_kept_after_first segs mlon mlat p (d0 : Q)
    (seg : RoofSegment) :
  boundingBox seg = None ->
  Py.get (pitchDegrees seg) 0 <= 0 ->
  0 <= seg_ground_area seg ->
  exists ps d',
    process_segment radians cos sqrt segs mlon mlat p (Some d0) seg
    = inr (ps, d').
Proof.
  intros Hb Hpitch Harea. unfold process_segment, eave_from_bbox.
  rewrite Hb. cbn.
  assert (Hs : forall x, 0 <= x -> math_sqrt sqrt x = inr (sqrt x)).
  { intros x Hx. unfold math_sqrt.
    destruct (ltb_spec x 0); [exfalso; lra | reflexivity]. }
  assert (E2 : exists e2,
             (if Py.ltb 0 (seg_ground_area seg)
              then _calculate_eave_length_from_area radians cos sqrt
                     (seg_ground_area seg) (Py.get (pitchDegrees seg) 0)
              else Py.ret 0) = inr e2).
  { destruct (Py.ltb 0 (seg_ground_area seg)); [|now exists 0].
    unfold _calculate_eave_length_from_area.
    apply Qle_bool_iff in Hpitch. rewrite Hpitch.
    rewrite (Hs _ Harea). eexists. reflexivity. }
  destruct E2 as [e2 ->]. cbn.
  assert (E3 : exists e3,
             (if Py.is_zero e2 && Py.ltb 0 p
              then if Py.ltb 0 (total_area segs)
                   then area_ratio <- Py.div (seg_ground_area seg)
                                             (total_area segs) ;;
                        Py.ret (p * area_ratio * 0.25)
                   else Py.ret e2
              else Py.ret e2) = inr e3).
  { destruct (Py.is_zero e2 && Py.ltb 0 p); [|now exists e2].
    destruct (ltb_spec 0 (total_area segs)) as [Ht | Ht]; [|now exists e2].
    unfold Py.div.
    destruct (Py.is_zero (total_area segs)) eqn:Ez.
    - apply is_zero_eq in Ez. exfalso. lra.
    - cbn. eexists. reflexivity. }
  destruct E3 as [e3 ->]. cbn.
  destruct (ltb_spec 0 e3) as [He | He].
  - unfold Py.div. destruct (Py.is_zero e3) eqn:Ez.
    + apply is_zero_eq in Ez. exfalso. lra.
    + cbn. eexists _, _. reflexivity.
  - cbn. eexists _, _. reflexivity.
Qed.

End SegmentBatch.


(** ** The complexity factor by roof type *)

(** [_calculate_complexity_factor] stays within [0.8, 1.8] and does not
    decrease when segments are added. *)
Theorem complexity_factor_monotone (rt : string)
    (segs segs' : list ProcessedSegment) (methods : Z) :
  (List.length segs <= List.length segs')%nat ->
  0.8 <= _calculate_complexity_factor rt segs methods /\
  _calculate_complexity_factor rt segs methods
    <= _calculate_complexity_factor rt segs' methods /\
  _calculate_complexity_factor rt segs' methods <= 1.8.
Proof.
  intros Hn.
  assert (Hb : forall l, 0.8 <= _calculate_complexity_factor rt l methods <= 1.8).
  { intros l. unfold _calculate_complexity_factor.
    match goal with
    | |- context [Py.max 0.8 ?x] =>
        destruct (py_max_cases 0.8 x) as [[? ->] | [? ->]]
    end;
    match goal with
    | |- context [Py.min ?a ?b] =>
        destruct (py_min_cases a b) as [[? ->] | [? ->]]
    end; lra. }
  split; [apply Hb|]. split; [|apply Hb].
  unfold _calculate_complexity_factor.
  apply clamp_monotone.
  set (b := dict_get type_complexity rt 1.2).
  assert (Hs : (if (2 <? List.length segs)%nat
                then b + 0.05 * inject_Z (Z.of_nat (List.length segs) - 2)
                else b)
               <= (if (2 <? List.length segs')%nat
                   then b + 0.05 * inject_Z (Z.of_nat (List.length segs') - 2)
                   else b)).
  { destruct (Nat.ltb_spec 2 (List.length segs));
      destruct (Nat.ltb_spec 2 (List.length segs')); try lia.
    - assert (inject_Z (Z.of_nat (List.length segs) - 2)
              <= inject_Z (Z.of_nat (List.length segs') - 2))
        by (rewrite <- Zle_Qle; lia).
      lra.
    - assert (inject_Z 0 <= inject_Z (Z.of_nat (List.length segs') - 2))
        by (rewrite <- Zle_Qle; lia).
      change (inject_Z 0) with 0 in *. lra.
    - lra. }
  revert Hs.
  generalize (if (2 <? List.length segs)%nat
              then b + 0.05 * inject_Z (Z.of_nat (List.length segs) - 2)
              else b).
  generalize (if (2 <? List.length segs')%nat
              then b + 0.05 * inject_Z (Z.of_nat (List.length segs') - 2)
              else b).
  intros y x Hxy.
  destruct (3 <=? methods)%Z; [lra|].
  destruct (methods <=? 1)%Z; lra.
Qed.

Lemma complexity_factor_monotone_witness :
  0.8 <= _calculate_complexity_factor "hip" [] 2 /\
  _calculate_complexity_factor "hip" [] 2
    <= _calculate_complexity_factor "hip" Inputs.four_processed 2 /\
  _calculate_complexity_factor "hip" Inputs.four_processed 2 <= 1.8.
Proof.
  apply (complexity_factor_monotone "hip" [] Inputs.four_processed 2).
  cbn. lia.
Defined.

(** ** Confidence fusion, again *)

Lemma half_between (a g : Q) : a < g -> a < (a + g) / 2 /\ (a + g) / 2 < g.
Proof.
  intros H. unfold Qdiv. change (/ 2) with (1 # 2). lra.
Qed.

(** With segments, geometry validation never lowers the confidence and
    returns the AI type or the geometry type; a confidence above the AI's
    is at most 0.95. *)
Theorem geometry_validation_raises_confidence (ai_type : string)
    (bd : BuildingData) (ai_conf : Q) :
  roofSegmentStats bd <> [] ->
  let r := _validate_roof_type_geometry ai_type bd ai_conf in
  let gt :=
    _simple_segment_based_classification (List.length (roofSegmentStats bd)) in
  ai_conf <= snd r /\
  (snd r == ai_conf \/ snd r <= 0.95) /\
  (fst r = ai_type \/ fst r = gt).
Proof.
  intros Hne. cbv zeta. unfold _validate_roof_type_geometry.
  destruct (roofSegmentStats bd) as [|s segs'] eqn:Es; [congruence|].
  set (n := List.length (s :: segs')).
  set (gt := _simple_segment_based_classification n).
  destruct (simple_confidence_clamp n ai_type gt) as [_ [Hlo Hhi]].
  set (g := _calculate_simple_confidence n ai_type gt) in *.
  destruct (ltb_spec (ai_conf + 0.15) g) as [H1 | H1]; cbn [fst snd].
  - repeat split; [lra | right; exact Hhi | now right].
  - destruct (ltb_spec ai_conf g) as [H2 | H2]; cbn [fst snd].
    + destruct (half_between ai_conf g H2) as [Ha Hb].
      repeat split; [lra | right; lra | now right].
    + destruct (py_max_cases ai_conf (g * 0.9)) as [[? ->] | [? ->]].
      * repeat split; [lra | right; lra | now left].
      * repeat split; [lra | left; reflexivity | now left].
Qed.

Lemma geometry_validation_raises_confidence_witness :
  let r := _validate_roof_type_geometry "hip" Inputs.small_house 0.7 in
  0.7 <= snd r /\
  (snd r == 0.7 \/ snd r <= 0.95) /\
  (fst r = "hip" \/ fst r = "gable").
Proof.
  apply (geometry_validation_raises_confidence "hip" Inputs.small_house 0.7).
  discriminate.
Defined.



(** ** Prediction from geometry *)

(** [_predict_roof_type_from_geometry] never answers "unknown"; from one
    segment on it does not look at the total area; and it answers
    "mansard" only for four segments. *)
Theorem predict_roof_type_cases (n u : Z) (pitches : list Q) (area area' : Q) :
  let r := _predict_roof_type_from_geometry n u pitches area in
  In r ["flat"; "shed"; "gable"; "gambrel"; "hip"; "mansard"; "complex"] /\
  ((1 <= n)%Z -> r = _predict_roof_type_from_geometry n u pitches area') /\
  (r = "mansard" -> n = 4%Z).
Proof.
  unfold _predict_roof_type_from_geometry.
  destruct (Z.eqb_spec n 1);
    [destruct (Py.ltb (avg_pitch_of pitches) 15); cbn; repeat split;
       intros; try tauto; try discriminate; lia|].
  destruct (Z.eqb_spec n 2);
    [destruct (u =? 2)%Z; cbn; repeat split;
       intros; try tauto; try discriminate; lia|].
  destruct (Z.eqb_spec n 3);
    [destruct (3 <=? u)%Z; cbn; repeat split;
       intros; try tauto; try discriminate; lia|].
  destruct (Z.eqb_spec n 4);
    [destruct (3 <=? u)%Z; [destruct (existsb _ pitches)|]; cbn; repeat split;
       intros; try tauto; try discriminate; lia|].
  destruct (Z.eqb_spec n 5);
    [destruct (4 <=? u)%Z; cbn; repeat split;
       intros; try tauto; try discriminate; lia|].
  destruct (Z.leb_spec 6 n);
    [destruct (5 <=? u)%Z; cbn; repeat split;
       intros; try tauto; try discriminate; lia|].
  destruct (Py.ltb 200 area); [|destruct (Py.ltb (avg_pitch_of pitches) 20)];
    cbn; repeat split; intros; try tauto; try discriminate; lia.
Qed.

Lemma predict_roof_type_cases_witness :
  _predict_roof_type_from_geometry 4 4 [30; 50; 30; 50] 120
  = _predict_roof_type_from_geometry 4 4 [30; 50; 30; 50] 500.
Proof.
  apply (proj1 (proj2 (predict_roof_type_cases 4 4 [30; 50; 30; 50] 120 500))).
  lia.
Defined.

(** ** The bounding-box estimator *)

Lemma abs_nonneg (x : Q) : 0 <= Py.abs x.
Proof. unfold Py.abs. destruct (ltb_spec x 0); lra. Qed.

Lemma distance_nonneg (a b : Q) : 0 <= Estimator._calculate_distance a b.
Proof.
  unfold Estimator._calculate_distance.
  apply Qmult_le_0_compat; [apply abs_nonneg | q_le].
Qed.

(** For an eave length that is not negative, the finalized record has at
    least two downspouts, an eave length that is not negative, and a range
    of two bounds that bracket the eave length. *)
Lemma finalize_estimation_brackets (eave : Q) (segments : list Stats) :
  0 <= eave ->
  let r := Estimator._finalize_estimation eave segments in
  (2 <= Estimator.downspouts r)%Z /\
  0 <= Estimator.eave_length_m r /\
  exists lo hi,
    Estimator.range_m r = [lo; hi] /\
    lo <= Estimator.eave_length_m r /\ Estimator.eave_length_m r <= hi.
Proof.
  intros He. unfold Estimator._finalize_estimation.
  set (e := if Py.ltb 1000 eave then eave / 111000 else eave).
  assert (Hpos : 0 <= e).
  { subst e. destruct (Py.ltb 1000 eave); [|exact He].
    apply Qle_shift_div_l; [reflexivity | lra]. }
  clearbody e. cbn [Estimator.downspouts Estimator.eave_length_m
                    Estimator.range_m map].
  split; [rewrite imax_max; lia|].
  split.
  - apply Qle_trans with (Py.round_digits 0 1); [q_le|].
    now apply round_digits_monotone.
  - eexists _, _. split; [reflexivity|].
    split; apply round_digits_monotone; lra.
Qed.

Section EstimatorFacts.

Variable sqrt : Q -> Q.

(** [math.sqrt] returns a non-negative number. *)
Hypothesis sqrt_nonneg : forall x, 0 <= x -> 0 <= sqrt x.

(** Whatever the roof type and the statistics, an estimate that is
    returned has at least two downspouts and a range that brackets its
    eave length. *)
Theorem estimate_gutter_brackets (rt : string) (stats : Estimator.EstimatorStats)
    (r : Estimator.Estimation) :
  Estimator.estimate_gutter sqrt rt stats = inr r ->
  (2 <= Estimator.downspouts r)%Z /\
  0 <= Estimator.eave_length_m r /\
  exists lo hi,
    Estimator.range_m r = [lo; hi] /\
    lo <= Estimator.eave_length_m r /\ Estimator.eave_length_m r <= hi.
Proof.
  set (segs := Estimator.stats_segments stats).
  set (b := Estimator.stats_boundingBox stats).
  pose proof (distance_nonneg (Py.get (Estimator.west b) 0)
                (Py.get (Estimator.east b) 0)) as Hw.
  pose proof (distance_nonneg (Py.get (Estimator.south b) 0)
                (Py.get (Estimator.north b) 0)) as Hl.
  fold (Estimator.box_width b) in Hw. fold (Estimator.box_length b) in Hl.
  assert (Hfb : Estimator._fallback_estimation sqrt segs = inr r ->
                (2 <= Estimator.downspouts r)%Z /\
                0 <= Estimator.eave_length_m r /\
                exists lo hi,
                  Estimator.range_m r = [lo; hi] /\
                  lo <= Estimator.eave_length_m r /\
                  Estimator.eave_length_m r <= hi).
  { unfold Estimator._fallback_estimation.
    destruct segs as [|s segs'].
    - intros E. injection E as <-.
      apply finalize_estimation_brackets. q_le.
    - unfold math_sqrt.
      match goal with
      | |- context [Py.ltb ?t 0] =>
          set (total := t); destruct (ltb_spec total 0) as [Hn | Hn]
      end; [discriminate|].
      apply Qnot_lt_le in Hn. apply sqrt_nonneg in Hn.
      clearbody total. cbn.
      intros E. injection E as <-.
      apply finalize_estimation_brackets. lra. }
  assert (Hmax : 0 <= Py.max (Estimator.box_width b) (Estimator.box_length b)).
  { destruct (py_max_cases (Estimator.box_width b) (Estimator.box_length b))
      as [[? ->] | [? ->]]; assumption. }
  assert (Hcx : 0 <= 1.0 + inject_Z (Z.of_nat (List.length segs) - 2) * 0.1).
  { assert (inject_Z (-2) <= inject_Z (Z.of_nat (List.length segs) - 2))
      by (rewrite <- Zle_Qle; lia).
    change (inject_Z (-2)) with (-2 # 1) in *. lra. }
  unfold Estimator.estimate_gutter. fold segs. fold b.
  unfold Estimator._estimate_gable, Estimator._estimate_hip,
    Estimator._estimate_flat, Estimator._estimate_mansard,
    Estimator._estimate_gambrel, Estimator._estimate_shed,
    Estimator._estimate_complex.
  destruct (Estimator.box_truthy b); cbn [negb];
    [|repeat match goal with
      | |- context [if ?c then _ else _] => destruct c
      end; exact Hfb].
  generalize dependent (Estimator.box_width b).
  generalize dependent (Estimator.box_length b).
  intros len Hl wid Hw Hmax.
  repeat match goal with
  | |- context [if ?c then _ else _] => destruct c
  end; intros E; injection E as <-; apply finalize_estimation_brackets;
    try lra.
  apply Qmult_le_0_compat; [lra | exact Hcx].
Qed.

End EstimatorFacts.

Lemma estimate_gutter_brackets_witness :
  let r := Estimator._finalize_estimation
             (Py.max (Estimator.box_width Inputs.house_box)
                     (Estimator.box_length Inputs.house_box) * 2) [] in
  (2 <= Estimator.downspouts r)%Z /\
  0 <= Estimator.eave_length_m r /\
  exists lo hi,
    Estimator.range_m r = [lo; hi] /\
    lo <= Estimator.eave_length_m r /\ Estimator.eave_length_m r <= hi.
Proof.
  apply (estimate_gutter_brackets Sample.sqrt sample_sqrt_nonneg "gable"
           (Estimator.mkEstimatorStats [] Inputs.house_box)).
  reflexivity.
Defined.

(** Without a bounding box the roof type plays no part: every roof type
    gets the fallback estimate, which for no segments is an eave of 100 m. *)
Theorem estimate_gutter_without_box (sqrt : Q -> Q) (rt : string)
    (stats : Estimator.EstimatorStats) :
  Estimator.box_truthy (Estimator.stats_boundingBox stats) = false ->
  Estimator.estimate_gutter sqrt rt stats
  = Estimator._fallback_estimation sqrt (Estimator.stats_segments stats) /\
  (Estimator.stats_segments stats = [] ->
   Estimator.estimate_gutter sqrt rt stats
   = inr (Estimator.mkEstimation (Py.round_digits 100.0 1) 10
            [Py.round_digits (100.0 - 100.0 * 0.1) 1;
             Py.round_digits (100.0 + 100.0 * 0.1) 1])).
Proof.
  intros Hb.
  assert (H : Estimator.estimate_gutter sqrt rt stats
              = Estimator._fallback_estimation sqrt
                  (Estimator.stats_segments stats)).
  { unfold Estimator.estimate_gutter, Estimator._estimate_gable,
      Estimator._estimate_hip, Estimator._estimate_flat,
      Estimator._estimate_mansard, Estimator._estimate_gambrel,
      Estimator._estimate_shed, Estimator._estimate_complex.
    rewrite Hb. cbn [negb].
    repeat match goal with
    | |- context [if ?c then _ else _] => destruct c
    end; reflexivity. }
  split; [exact H|].
  intros Hs. rewrite H, Hs. reflexivity.
Qed.

Lemma estimate_gutter_without_box_witness :
  Estimator.estimate_gutter Sample.sqrt "mansard"
    (Estimator.mkEstimatorStats [] Estimator.no_box)
  = Estimator._fallback_estimation Sample.sqrt [].
Proof.
  apply (proj1 (estimate_gutter_without_box Sample.sqrt "mansard"
                  (Estimator.mkEstimatorStats [] Estimator.no_box) eq_refl)).
Defined.

(** An eave length above 1000 m is taken for a number of degrees and
    divided by 111000: every eave length between 1000 m and 11100 m is
    reported as at most 0.1 m, with two downspouts. *)
Theorem finalize_estimation_large_eave (eave : Q) (segments : list Stats) :
  1000 < eave -> eave <= 11100 ->
  let r := Estimator._finalize_estimation eave segments in
  Estimator.eave_length_m r <= 0.1 /\ Estimator.downspouts r = 2%Z.
Proof.
  intros Hlo Hhi. unfold Estimator._finalize_estimation.
  apply ltb_lt in Hlo as Hb. rewrite Hb.
  cbn [Estimator.eave_length_m Estimator.downspouts].
  assert (He : 0 <= eave / 111000 /\ eave / 111000 <= 0.1).
  { split.
    - apply Qle_shift_div_l; [reflexivity | lra].
    - apply Qle_shift_div_r; [reflexivity | lra]. }
  destruct He as [He0 He1]. split.
  - apply Qle_trans with (Py.round_digits 0.1 1); [|q_le].
    now apply round_digits_monotone.
  - rewrite imax_max.
    assert (Hr : (Py.round (eave / 111000 / Estimator.downspout_ratio) <= 0)%Z).
    { change 0%Z with (Py.round_half_even 0.01). unfold Py.round.
      apply round_half_even_monotone.
      apply Qle_shift_div_r; [reflexivity|].
      unfold Estimator.downspout_ratio. lra. }
    lia.
Qed.

Lemma finalize_estimation_large_eave_witness :
  let r := Estimator._finalize_estimation
             (Py.max (Estimator.box_width Inputs.block_box)
                     (Estimator.box_length Inputs.block_box) * 2) [] in
  Estimator.eave_length_m r <= 0.1 /\ Estimator.downspouts r = 2%Z.
Proof.
  apply (finalize_estimation_large_eave
           (Py.max (Estimator.box_width Inputs.block_box)
                   (Estimator.box_length Inputs.block_box) * 2) []).
  - q_lt.
  - q_le.
Defined.

(** ** Depth of the processed segments *)

Lemma process_loop_depth (radians cos sqrt : Q -> Q) segs mlon mlat p d todo :
  forall ps,
    In ps (process_loop radians cos sqrt segs mlon mlat p d todo) ->
    0 < eave_m ps -> depth_m ps = area_m2 ps / eave_m ps.
Proof.
  revert d. induction todo as [|seg rest IH]; intros d ps; cbn; [intros []|].
  destruct (process_segment radians cos sqrt segs mlon mlat p d seg)
    as [ex | [ps0 d0]] eqn:E.
  - apply IH.
  - intros [<- | Hin].
    + eapply process_segment_depth. exact E.
    + now apply (IH d0).
Qed.

(** Every processed segment whose eave length is positive has the depth
    [area / eave]. *)
Theorem processed_depth_when_eave_positive (radians cos sqrt : Q -> Q)
    (segs : list RoofSegment) (c : LatLng) (p : Q) (ps : ProcessedSegment) :
  In ps (_process_roof_segments_improved radians cos sqrt segs c p) ->
  0 < eave_m ps ->
  depth_m ps = area_m2 ps / eave_m ps.
Proof.
  unfold _process_roof_segments_improved. cbn [_calculate_meters_per_degree].
  apply process_loop_depth.
Qed.

Lemma processed_depth_when_eave_positive_witness :
  let ps := mkProcessedSegment 50 0 0 7.071 (50000 # 7071) 0 no_bbox in
  depth_m ps = area_m2 ps / eave_m ps.
Proof.
  apply (processed_depth_when_eave_positive Sample.radians Sample.cos
           Sample.sqrt [Inputs.segment 0 0 50] Inputs.a_center 40).
  - vm_compute. left. reflexivity.
  - reflexivity.
Defined.

(** ** The perimeter of a roof of known area *)

Section PerimeterWithArea.

Variables radians cos sqrt : Q -> Q.

(** [math.sqrt] of a positive number is positive. *)
Hypothesis sqrt_pos : forall x, 0 < x -> 0 < sqrt x.

Lemma perimeter_method2_pos (segs : list RoofSegment) (mlon mlat est est' : Q) :
  0 < est -> perimeter_method2 segs mlon mlat est = inr est' -> 0 < est'.
Proof.
  intros Hest. unfold perimeter_method2.
  destruct segs as [|s segs']; [intros E; injection E as <-; exact Hest|].
  destruct (collect_bounds (s :: segs') [] []) as [ex | [lats lons]]; cbn;
    [discriminate|].
  destruct lats as [|lat0 lats]; [intros E; injection E as <-; exact Hest|].
  destruct lons as [|lon0 lons]; [intros E; injection E as <-; exact Hest|].
  match goal with
  | |- context [Py.ltb 0 ?b && _] => destruct (ltb_spec 0 b) as [Hb | Hb]
  end; cbn [andb].
  - match goal with
    | |- context [if ?c then _ else _] => destruct c
    end; intros E; injection E as <-; assumption.
  - intros E; injection E as <-; exact Hest.
Qed.

(** When the whole-roof ground area is positive and the bounding boxes
    carry their coordinates, the perimeter step returns a perimeter within
    [20, 200] together with that area as the footprint. *)
Theorem building_perimeter_with_area (segs : list RoofSegment) (c : LatLng)
    (wrs : Stats) (ga : Q) :
  groundAreaMeters2 wrs = Some ga -> 0 < ga ->
  forallb bbox_complete segs = true ->
  exists p,
    _calculate_building_perimeter radians cos sqrt segs c wrs = inr (p, ga) /\
    20 <= p <= 200.
Proof.
  intros Hga Hpos Hb.
  assert (Ha : area_valid wrs = true).
  { unfold area_valid. rewrite Hga. apply Qle_bool_iff. lra. }
  destruct (building_perimeter_returns radians cos sqrt segs c wrs Ha Hb)
    as (p & a & Hp).
  assert (Hz : Py.is_zero ga = false).
  { destruct (Py.is_zero ga) eqn:E; [|reflexivity].
    apply is_zero_eq in E. exfalso. lra. }
  assert (Hs : math_sqrt sqrt ga = inr (sqrt ga)).
  { unfold math_sqrt. destruct (ltb_spec ga 0); [exfalso; lra | reflexivity]. }
  pose proof (sqrt_pos ga Hpos) as Hroot.
  revert Hp. unfold _calculate_building_perimeter, perimeter_method1.
  cbn [_calculate_meters_per_degree].
  rewrite Hga, Hz, Hs. cbn.
  match goal with
  | |- context [perimeter_method2 ?s ?x ?y ?e] =>
      destruct (perimeter_method2 s x y e) as [ex | est2] eqn:E2
  end; cbn; [discriminate|].
  apply perimeter_method2_pos in E2; [|lra].
  assert (Hz2 : Py.is_zero est2 = false).
  { destruct (Py.is_zero est2) eqn:E; [|reflexivity].
    apply is_zero_eq in E. exfalso. lra. }
  rewrite Hz2. cbn.
  intros E. injection E as <- <-.
  exists (clamp_perimeter est2). split; [reflexivity|].
  apply clamp_perimeter_positive.
  unfold clamp_perimeter. apply ltb_lt in E2 as Hb2. rewrite Hb2.
  destruct (ltb_spec est2 20); [reflexivity|].
  destruct (ltb_spec 200 est2); [reflexivity | exact E2].
Qed.

End PerimeterWithArea.

Lemma sample_sqrt_up_pos (x : Q) : 0 < x -> 0 < Sample.sqrt_up x.
Proof.
  intros _. unfold Sample.sqrt_up.
  pose proof (sample_sqrt_nonneg x) as H.
  assert (H0 : 0 <= Sample.sqrt x).
  { unfold Sample.sqrt. apply Qle_shift_div_l; [reflexivity|].
    rewrite Qmult_0_l. change 0 with (inject_Z 0). rewrite <- Zle_Qle.
    apply Z.sqrt_nonneg. }
  apply Qle_lt_trans with (Sample.sqrt x + 0); [lra|].
  apply Qplus_lt_r. reflexivity.
Qed.

Lemma building_perimeter_with_area_witness :
  exists p,
    _calculate_building_perimeter Sample.radians Sample.cos Sample.sqrt_up
      Inputs.two_slopes Inputs.a_center (mkStats (Some 100)) = inr (p, 100) /\
    20 <= p <= 200.
Proof.
  apply (building_perimeter_with_area Sample.radians Sample.cos Sample.sqrt_up
           sample_sqrt_up_pos Inputs.two_slopes Inputs.a_center
           (mkStats (Some 100)) 100).
  - reflexivity.
  - reflexivity.
  - reflexivity.
Defined.

(** ** The geometry confidence *)

(** The geometry confidence is at least 0.7 and at most 0.95 for every
    segment count and pair of types: the lower clamp at 0.4 never applies. *)
Theorem simple_confidence_floor (n : nat) (ai_type geometry_type : string) :
  0.7 <= _calculate_simple_confidence n ai_type geometry_type <= 0.95 /\
  _calculate_simple_confidence n ai_type geometry_type
  = Py.min 0.95 (base_confidence n ai_type geometry_type).
Proof.
  unfold _calculate_simple_confidence.
  destruct (base_confidence_range n ai_type geometry_type) as [Hlo Hhi].
  generalize dependent (base_confidence n ai_type geometry_type).
  intros b Hlo Hhi.
  destruct (py_min_cases 0.95 b) as [[H1 ->] | [H1 ->]];
    match goal with
    | |- context [Py.max 0.4 ?x] =>
        destruct (py_max_cases 0.4 x) as [[H2 ->] | [H2 ->]]
    end; try (split; [split|]; first [lra | q_le | reflexivity]);
    exfalso; try lra; revert H2; apply Qlt_not_le; q_lt.
Qed.

(** ** Batches of flat segments *)

Section FlatBatch.

Variables radians cos sqrt : Q -> Q.

(** [math.sqrt] of a positive number is positive. *)
Hypothesis sqrt_pos : forall x, 0 < x -> 0 < sqrt x.

Lemma flat_segment_with_area_kept segs mlon mlat p d (seg : RoofSegment) :
  boundingBox seg = None ->
  Py.get (pitchDegrees seg) 0 <= 0 ->
  0 < seg_ground_area seg ->
  exists ps d',
    process_segment radians cos sqrt segs mlon mlat p d seg = inr (ps, d').
Proof.
  intros Hb Hpitch Harea. unfold process_segment, eave_from_bbox.
  rewrite Hb. cbn.
  apply ltb_lt in Harea as Hab. rewrite Hab.
  unfold _calculate_eave_length_from_area.
  apply Qle_bool_iff in Hpitch. rewrite Hpitch.
  unfold math_sqrt.
  destruct (ltb_spec (seg_ground_area seg) 0); [exfalso; lra|]. cbn.
  pose proof (sqrt_pos _ Harea) as Hroot.
  assert (Hz : Py.is_zero (sqrt (seg_ground_area seg)) = false).
  { destruct (Py.is_zero (sqrt (seg_ground_area seg))) eqn:E; [|reflexivity].
    apply is_zero_eq in E. exfalso. lra. }
  rewrite Hz. cbn.
  apply ltb_lt in Hroot as Hrb. rewrite Hrb.
  unfold Py.div. rewrite Hz. cbn. eexists _, _. reflexivity.
Qed.

Lemma flat_loop_all_kept segs mlon mlat p (todo : list RoofSegment) :
  Forall (fun seg => boundingBox seg = None
                     /\ Py.get (pitchDegrees seg) 0 <= 0
                     /\ 0 <= seg_ground_area seg) todo ->
  forall d0,
    List.length (process_loop radians cos sqrt segs mlon mlat p (Some d0) todo)
    = List.length todo.
Proof.
  induction 1 as [|seg rest (Hb & Hp & Ha) _ IH]; intros d0; [reflexivity|].
  cbn [process_loop].
  destruct (flat_segment_kept_after_first radians cos sqrt segs mlon mlat p d0
              seg Hb Hp Ha) as (ps & d' & E).
  rewrite E.
  apply process_segment_fields in E as (_ & _ & _ & _ & ->).
  cbn [List.length]. now rewrite IH.
Qed.

(** A batch of segments without bounding boxes, with pitches that are not
    positive and ground areas that are not negative, is processed without
    loss when its first segment has a positive ground area. *)
Theorem flat_batch_fully_processed (s : RoofSegment) (rest : list RoofSegment)
    (c : LatLng) (p : Q) :
  Forall (fun seg => boundingBox seg = None
                     /\ Py.get (pitchDegrees seg) 0 <= 0
                     /\ 0 <= seg_ground_area seg) (s :: rest) ->
  0 < seg_ground_area s ->
  List.length (_process_roof_segments_improved radians cos sqrt (s :: rest) c p)
  = List.length (s :: rest).
Proof.
  intros Hall Hs. inversion Hall as [|? ? (Hb & Hp & _) Hrest]; subst.
  unfold _process_roof_segments_improved. cbn [_calculate_meters_per_degree].
  cbn [process_loop].
  match goal with
  | |- context [process_segment _ _ _ ?sg ?a ?b ?q None s] =>
      destruct (flat_segment_with_area_kept sg a b q None s Hb Hp Hs)
        as (ps & d' & E)
  end.
  rewrite E.
  apply process_segment_fields in E as (_ & _ & _ & _ & ->).
  cbn [List.length]. now rewrite flat_loop_all_kept.
Qed.

End FlatBatch.

Lemma flat_batch_fully_processed_witness :
  List.length (_process_roof_segments_improved Sample.radians Sample.cos
                 Sample.sqrt_up Inputs.with_empty_segment Inputs.a_center 40)
  = List.length Inputs.with_empty_segment.
Proof.
  apply (flat_batch_fully_processed Sample.radians Sample.cos Sample.sqrt_up
           sample_sqrt_up_pos (Inputs.segment 0 0 50) [Inputs.segment 0 90 0]
           Inputs.a_center 40).
  - repeat constructor; q_le.
  - reflexivity.
Defined.

Lemma processed_segments_come_from_input_witness :
  exists seg,
    In seg Inputs.one_slope /\
    area_m2 (Inputs.processed (50 / 7.071) 50) = seg_ground_area seg.
Proof.
  destruct (proj2 (processed_segments_come_from_input Sample.radians Sample.cos
                     Sample.sqrt Inputs.one_slope Inputs.a_center 40)
              (hd (Inputs.processed (50 / 7.071) 50)
                 (_process_roof_segments_improved Sample.radians Sample.cos
                    Sample.sqrt Inputs.one_slope Inputs.a_center 40)))
    as (seg & Hin & Ha & _).
  - vm_compute. left. reflexivity.
  - exists seg. split; [exact Hin|]. destruct Hin as [<- | []]. reflexivity.
Defined.
